(** * generate-json.py: the add-on index generator

    A shallow embedding of [tools/generate-json.py] and the properties of
    its specification.

    The script scans a directory of Blender add-ons, reads the [bl_info]
    dictionary of each one without running it ([ast.parse] followed by
    [ast.literal_eval]), adds a download URL and a source label, and writes
    the result to [index.json], optionally on top of an index that is
    already there.

    Modelling choices.
    - Python objects are the inductive type [value]: [None], booleans,
      integers, floats, strings, tuples, lists and dictionaries with string
      keys. These are the values a JSON document holds, and tuples. Bytes,
      sets and complex numbers, which [ast.literal_eval] also builds, and
      dictionaries with other keys than strings are not values of the
      model; the properties below are about declarations without them.
    - A float is a [spec_float]; a NaN is the one value [S754_nan], which
      Rocq's equality takes to be equal to itself where Python does not.
    - A dictionary is a [gmap string value]: Python compares dictionaries
      without regard to insertion order, which is the equality of [gmap].
    - The interpreter's library is modelled by what it returns: a file is
      described by what [ast.parse] and [json.load] make of its text, a
      directory by the entries [os.scandir] lists, in that order.
      [urllib.parse.urljoin] is a parameter of the development.
    - A path is a string, and two strings are two files: [index.json] in
      the working directory is the path ["index.json"] only. Writing a file
      does not change what a directory lists.
    - Writing the index is modelled where it succeeds, see
      [write_index_file] and [json_dumpable].
    - Effects are explicit: a computation takes the [world] (file system and
      log) and returns a [result] (a value or a raised exception) with the
      new world. *)

From stdpp Require Import gmap strings list fin_maps.
From Stdlib Require Import ZArith Ascii String SpecFloat.

Set Warnings "-register-all".
#[local] Open Scope string_scope.
#[local] Open Scope Z_scope.

(** ** Python values *)

Inductive value : Type :=
| VNone
| VBool (b : bool)
| VInt (n : Z)
| VFloat (f : spec_float)
| VStr (s : string)
| VTuple (elts : list value)
| VList (elts : list value)
| VDict (items : gmap string value).

(** [f == n] for a float and an integer: Python compares the two numbers
    exactly, so they are equal when the float is finite and its value is
    the integer. *)
Definition float_eq_int (f : spec_float) (n : Z) : bool :=
  match f with
  | S754_zero _ => Z.eqb n 0
  | S754_finite s m e =>
      let sign := if s then (-1) else 1 in
      if 0 <=? e then Z.eqb (sign * (Z.pos m * 2 ^ e)) n
      else Z.eqb (Z.pos m mod 2 ^ (- e)) 0
           && Z.eqb (sign * (Z.pos m / 2 ^ (- e))) n
  | S754_infinity _ | S754_nan => false
  end.

(** [v == n] for an integer constant [n]: Python identifies [True] with [1]
    and [False] with [0], and a float with the integer of the same value. *)
Definition py_eq_int (v : value) (n : Z) : bool :=
  match v with
  | VInt k => Z.eqb k n
  | VBool b => Z.eqb (if b then 1 else 0) n
  | VFloat f => float_eq_int f n
  | _ => false
  end.

(** [v == s] for a string constant [s]. *)
Definition py_eq_str (v : value) (s : string) : bool :=
  match v with
  | VStr t => String.eqb t s
  | _ => false
  end.

Definition is_None (v : value) : bool :=
  match v with VNone => true | _ => false end.

(** Number of constructors of a value; the measure behind [value_ind']. *)
Fixpoint value_size (v : value) : nat :=
  match v with
  | VTuple l | VList l => S (foldr (λ x acc, value_size x + acc)%nat 0%nat l)
  | VDict m => S (map_fold (λ _ x acc, value_size x + acc)%nat 0%nat m)
  | _ => 1%nat
  end.

(** ** Exceptions, results, the log *)

Inductive exn : Type :=
| OSError
| UnicodeDecodeError
| SyntaxError
| ValueError (what : string)
| TypeError
| AttributeError
| KeyError (key : string)
| JSONDecodeError.

Inductive result (A : Type) : Type :=
| Ret (a : A)
| Raise (e : exn).
Arguments Ret {A} a.
Arguments Raise {A} e.

Inductive level : Type := DEBUG | INFO | WARNING | FATAL.

Inductive log_arg : Type :=
| AStr (s : string)
| AVal (v : value)
| AExc (e : exn).

Record log_record : Type := LogRecord {
  levelname : level;
  msg : string;
  args : list log_arg
}.

(** ** The file system *)

(** The abstract syntax [ast.parse] returns, as far as the script looks at
    it: the statements of the module body, of which only the class
    [ast.Assign] is told apart, and the expressions [ast.literal_eval]
    accepts or rejects. The expressions whose value is not a [value] have
    no constructor: set displays, bytes and complex constants, sums of a
    real and an imaginary number, and dictionary displays with a key that
    is not a string constant. [Call] stands for every call but [set()],
    which [ast.literal_eval] evaluates to the empty set since Python 3.9. *)
Inductive constant : Type :=
| CNone
| CBool (b : bool)
| CInt (n : Z)
| CFloat (f : spec_float)
| CStr (s : string).

Inductive expr : Type :=
| Constant (c : constant)
| Tuple (elts : list expr)
| List_ (elts : list expr)
| Dict (items : list (string * expr))
| USub (operand : expr)
| UAdd (operand : expr)
| Name (id : string)
| Call (func : expr) (args : list expr)
| Attribute (obj : expr) (attr : string).

Inductive stmt : Type :=
| Assign (targets : list expr) (rhs : expr)
| NotAssign.

(** What reading a file as Python source gives: bytes that are not text,
    text with a NUL character (on which [ast.parse] raises [ValueError]
    before Python 3.12), other text that is not Python, or a module. *)
Inductive py_source : Type :=
| Undecodable
| NulByte
| Malformed
| Module (body : list stmt).

(** JSON documents. A document is identified with the data it denotes: the
    members of an object are a finite map. *)
Inductive json : Type :=
| JNull
| JBool (b : bool)
| JNum (n : Z)
| JFloat (f : spec_float)
| JStr (s : string)
| JArr (elts : list json)
| JObj (members : gmap string json).

(** What [json.load] makes of a file: bytes that are not UTF-8, text that
    is not JSON, or a document. *)
Inductive json_source : Type :=
| NotUtf8
| NotJson
| Json (doc : json).

Record file : Type := File {
  as_python : py_source;
  as_json : json_source
}.

Record dir_entry : Type := DirEntry {
  name : string;
  is_dir : bool
}.

Record world : Type := World {
  files : gmap string file;
  dirs : gmap string (list dir_entry);
  log : list log_record
}.

(** ** The state and exception monad *)

Definition M (A : Type) : Type := world → result A * world.

Definition ret {A} (a : A) : M A := λ w, (Ret a, w).

Definition raise {A} (e : exn) : M A := λ w, (Raise e, w).

Definition bind {A B} (m : M A) (k : A → M B) : M B :=
  λ w, match m w with
       | (Ret a, w') => k a w'
       | (Raise e, w') => (Raise e, w')
       end.

#[global] Instance M_ret : MRet M := @ret.
#[global] Instance M_bind : MBind M := λ A B k m, bind m k.

Definition log_call (l : level) (fmt : string) (a : list log_arg) : M unit :=
  λ w, (Ret tt, World (files w) (dirs w) (log w ++ [LogRecord l fmt a])).

Definition open_read (fname : string) : M file :=
  λ w, match files w !! fname with
       | Some f => (Ret f, w)
       | None => (Raise OSError, w)
       end.

Definition os_scandir (path : string) : M (list dir_entry) :=
  λ w, match dirs w !! path with
       | Some l => (Ret l, w)
       | None => (Raise OSError, w)
       end.

Definition os_path_exists (path : string) : M bool :=
  λ w, (Ret (bool_decide (path ∈ dom (files w) ∨ path ∈ dom (dirs w))), w).

Definition write_file (fname : string) (f : file) : M unit :=
  λ w, (Ret tt, World (<[fname := f]> (files w)) (dirs w) (log w)).

Definition lift {A} (r : result A) : M A := λ w, (r, w).

(** ** Strings and paths *)

(** [s.rfind(c)], [None] for Python's [-1]. *)
Fixpoint rfind (c : ascii) (s : string) : option nat :=
  match s with
  | EmptyString => None
  | String a s' =>
      match rfind c s' with
      | Some i => Some (S i)
      | None => if Ascii.eqb a c then Some 0%nat else None
      end
  end.

Fixpoint all_dots (s : string) : bool :=
  match s with
  | EmptyString => true
  | String a s' => Ascii.eqb a "." && all_dots s'
  end.

(** [os.path.splitext] ([genericpath._splitext] with separator [/]): the
    extension starts at the last dot of the last path component, unless
    that component has only dots before it. *)
Definition splitext (p : string) : string * string :=
  match rfind "." p with
  | None => (p, "")
  | Some dotIndex =>
      let filenameIndex :=
        match rfind "/" p with Some sepIndex => S sepIndex | None => 0%nat end in
      if (filenameIndex <=? dotIndex)%nat then
        if all_dots (substring filenameIndex (dotIndex - filenameIndex) p)
        then (p, "")
        else (substring 0 dotIndex p,
              substring dotIndex (String.length p - dotIndex) p)
      else (p, "")
  end.

Definition startswith (s pre : string) : bool := String.prefix pre s.

Definition endswith (s suf : string) : bool :=
  String.eqb
    (substring (String.length s - String.length suf) (String.length suf) s) suf.

(** [posixpath.join] of two components. *)
Definition os_path_join (a b : string) : string :=
  if startswith b "/" then b
  else if String.eqb a "" || endswith a "/" then a ++ b
  else a ++ "/" ++ b.

(** [needle in hay] for two strings. *)
Definition str_contains (hay needle : string) : bool :=
  match String.index 0 needle hay with Some _ => true | None => false end.

(** ** Operations on Python objects *)

(** [key in container]. *)
Definition py_contains (container : value) (key : string) : result bool :=
  match container with
  | VDict m => Ret (bool_decide (key ∈ dom m))
  | VStr s => Ret (str_contains s key)
  | VTuple l | VList l => Ret (existsb (λ x, py_eq_str x key) l)
  | VNone | VBool _ | VInt _ | VFloat _ => Raise TypeError
  end.

(** [d.update(other)] on the items of two dictionaries. *)
Definition dict_update (d other : gmap string value) : gmap string value :=
  other ∪ d.

(** [obj.copy()]: dictionaries and lists have the method. *)
Definition py_copy (obj : value) : result value :=
  match obj with
  | VDict m => Ret (VDict m)
  | VList l => Ret (VList l)
  | _ => Raise AttributeError
  end.

(** [obj.update(other)] for a dictionary [other], returning the updated
    object: only dictionaries have the method. *)
Definition py_update (obj : value) (other : gmap string value) : result value :=
  match obj with
  | VDict m => Ret (VDict (dict_update m other))
  | _ => Raise AttributeError
  end.

(** [obj.get(key, default)]. *)
Definition py_get (obj : value) (key : string) (default : value) : result value :=
  match obj with
  | VDict m => Ret (match m !! key with Some v => v | None => default end)
  | _ => Raise AttributeError
  end.

(** [obj[key]] for a string [key]. *)
Definition py_getitem (obj : value) (key : string) : result value :=
  match obj with
  | VDict m => match m !! key with Some v => Ret v | None => Raise (KeyError key) end
  | _ => Raise TypeError
  end.

(** ** ast.literal_eval *)

Definition value_of_constant (c : constant) : value :=
  match c with
  | CNone => VNone
  | CBool b => VBool b
  | CInt n => VInt n
  | CFloat f => VFloat f
  | CStr s => VStr s
  end.

Definition malformed {A} : result A := Raise (ValueError "malformed node or string").

(** [_convert_num]: a constant whose type is a number type; [bool] is not
    one of them. *)
Definition convert_num (e : expr) : result value :=
  match e with
  | Constant (CInt n) => Ret (VInt n)
  | Constant (CFloat f) => Ret (VFloat f)
  | _ => malformed
  end.

(** [- v] for a number. *)
Definition py_neg (v : value) : value :=
  match v with
  | VInt n => VInt (- n)
  | VFloat f => VFloat (SFopp f)
  | _ => v
  end.

(** [ast.literal_eval] on the expressions of [expr]: constants, tuple,
    list and dictionary displays, and a sign before a number. The items of
    a dictionary display are evaluated in order, and a later item replaces
    an earlier one with the same key. Anything else is a malformed node. *)
Fixpoint literal_eval (e : expr) : result value :=
  let fix convert_all (l : list expr) : result (list value) :=
    match l with
    | [] => Ret []
    | x :: r =>
        match literal_eval x with
        | Ret v =>
            match convert_all r with
            | Ret vs => Ret (v :: vs)
            | Raise ex => Raise ex
            end
        | Raise ex => Raise ex
        end
    end in
  let fix convert_items (l : list (string * expr)) : result (list (string * value)) :=
    match l with
    | [] => Ret []
    | (k, x) :: r =>
        match literal_eval x with
        | Ret v =>
            match convert_items r with
            | Ret kvs => Ret ((k, v) :: kvs)
            | Raise ex => Raise ex
            end
        | Raise ex => Raise ex
        end
    end in
  match e with
  | Constant c => Ret (value_of_constant c)
  | Tuple elts =>
      match convert_all elts with Ret vs => Ret (VTuple vs) | Raise ex => Raise ex end
  | List_ elts =>
      match convert_all elts with Ret vs => Ret (VList vs) | Raise ex => Raise ex end
  | Dict items =>
      match convert_items items with
      | Ret kvs => Ret (VDict (foldl (λ m kv, <[kv.1 := kv.2]> m) ∅ kvs))
      | Raise ex => Raise ex
      end
  | USub operand =>
      match convert_num operand with Ret n => Ret (py_neg n) | Raise ex => Raise ex end
  | UAdd operand =>
      match convert_num operand with Ret n => Ret n | Raise ex => Raise ex end
  | Name _ | Call _ _ | Attribute _ _ => malformed
  end.

(** ** json.dump and json.load *)

(** The document [json.dump] writes for an object: JSON has one sequence
    type, so tuples and lists both become arrays. *)
Fixpoint json_encode (v : value) : json :=
  match v with
  | VNone => JNull
  | VBool b => JBool b
  | VInt n => JNum n
  | VFloat f => JFloat f
  | VStr s => JStr s
  | VTuple l | VList l => JArr (json_encode <$> l)
  | VDict m => JObj (json_encode <$> m)
  end.

(** The object [json.load] builds from a document: arrays become lists. *)
Fixpoint json_decode (j : json) : value :=
  match j with
  | JNull => VNone
  | JBool b => VBool b
  | JNum n => VInt n
  | JFloat f => VFloat f
  | JStr s => VStr s
  | JArr l => VList (json_decode <$> l)
  | JObj m => VDict (json_decode <$> m)
  end.

(** A value with every tuple replaced by the list of its elements. *)
Fixpoint tuples_to_lists (v : value) : value :=
  match v with
  | VTuple l | VList l => VList (tuples_to_lists <$> l)
  | VDict m => VDict (tuples_to_lists <$> m)
  | _ => v
  end.

(** No tuple occurs in the value. *)
Fixpoint tuple_free (v : value) : bool :=
  match v with
  | VTuple _ => false
  | VList l => foldr (λ x acc, tuple_free x && acc) true l
  | VDict m => map_fold (λ _ x acc, tuple_free x && acc) true m
  | _ => true
  end.

(** No NaN occurs in the value. A NaN is written as [NaN] and read back as
    a NaN, but a NaN is not equal to any float, itself included. *)
Fixpoint nan_free (v : value) : bool :=
  match v with
  | VFloat S754_nan => false
  | VTuple l | VList l => foldr (λ x acc, nan_free x && acc) true l
  | VDict m => map_fold (λ _ x acc, nan_free x && acc) true m
  | _ => true
  end.

(** The default of [sys.get_int_max_str_digits()], since Python 3.11: the
    conversion of an integer of more decimal digits to a string raises
    [ValueError]. *)
Definition INT_MAX_STR_DIGITS : nat := 4300.

(** [len(str(abs(n)))]. *)
Definition decimal_digits (n : Z) : nat :=
  Decimal.nb_digits (N.to_uint (Z.abs_N n)).

(** The values [json.dump] serialises without raising: every integer in
    them has at most [INT_MAX_STR_DIGITS] decimal digits. On any other
    value of the model [json.dump] raises [ValueError], after [open] has
    truncated the file. *)
Fixpoint json_dumpable (v : value) : bool :=
  match v with
  | VInt n => (decimal_digits n <=? INT_MAX_STR_DIGITS)%nat
  | VTuple l | VList l => foldr (λ x acc, json_dumpable x && acc) true l
  | VDict m => map_fold (λ _ x acc, json_dumpable x && acc) true m
  | _ => true
  end.

(** ** The script *)

Definition REQUIRED_KEYS : list string := ["name"; "blender"].

Definition RECOMMENDED_KEYS : list string :=
  ["author"; "description"; "location"; "wiki_url"; "category"].

Definition CURRENT_SCHEMA_VERSION : Z := 1.

(** One turn of the loop of [iter_addons]: what the generator yields for a
    directory entry, if anything. *)
Definition iter_item (addons_dir : string) (item : dir_entry)
  : M (option (string * string * string)) :=
  if startswith (name item) "." then mret None
  else
    let '(base, ext) := splitext (name item) in
    let path := os_path_join addons_dir (name item) in
    if is_dir item then
      let fname := os_path_join path "__init__.py" in
      found ← os_path_exists fname;
      if negb found then
        log_call INFO "Skipping %s, it does not seem to be a Python package"
          [AStr path];;
        mret None
      else mret (Some (base, fname, ".zip"))
    else mret (Some (base, path, ".py")).

Fixpoint iter_items (addons_dir : string) (items : list dir_entry)
  : M (list (string * string * string)) :=
  match items with
  | [] => mret []
  | item :: rest =>
      y ← iter_item addons_dir item;
      ys ← iter_items addons_dir rest;
      mret (match y with Some t => t :: ys | None => ys end)
  end.

(** The generator run to its end. *)
Definition iter_addons (addons_dir : string) : M (list (string * string * string)) :=
  items ← os_scandir addons_dir;
  iter_items addons_dir items.

(** [getattr(target, 'id', '')]: only [ast.Name] nodes have an [id]. *)
Definition target_id (target : expr) : string :=
  match target with
  | Name id => id
  | _ => ""
  end.

(** The loop of [parse_blinfo] over the statements of the module. *)
Fixpoint find_blinfo (addon_fname : string) (body : list stmt) : M value :=
  match body with
  | [] =>
      log_call WARNING "Unable to find bl_info dict in %s" [AStr addon_fname];;
      mret VNone
  | NotAssign :: rest => find_blinfo addon_fname rest
  | Assign targets rhs :: rest =>
      match targets with
      | [target] =>
          if negb (String.eqb (target_id target) "bl_info")
          then find_blinfo addon_fname rest
          else lift (literal_eval rhs)
      | _ => find_blinfo addon_fname rest
      end
  end.

Definition parse_blinfo (addon_fname : string) : M value :=
  log_call DEBUG "Parsing %s" [AStr addon_fname];;
  infile ← open_read addon_fname;
  match as_python infile with
  | Undecodable =>
      log_call WARNING "Skipping addon: UnicodeDecodeError in %s: %s"
        [AStr addon_fname; AExc UnicodeDecodeError];;
      mret VNone
  | NulByte => raise (ValueError "source code string cannot contain null bytes")
  | Malformed =>
      log_call WARNING "Skipping addon: SyntaxError in %s: %s"
        [AStr addon_fname; AExc SyntaxError];;
      mret VNone
  | Module body => find_blinfo addon_fname body
  end.

(** [[key for key in keys if key not in bl_info]]. *)
Fixpoint missing_keys (keys : list string) (bl_info : value) : result (list string) :=
  match keys with
  | [] => Ret []
  | key :: rest =>
      match py_contains bl_info key with
      | Ret present =>
          match missing_keys rest bl_info with
          | Ret ks => Ret (if present then ks else key :: ks)
          | Raise ex => Raise ex
          end
      | Raise ex => Raise ex
      end
  end.

Definition is_nil {A} (l : list A) : bool :=
  match l with [] => true | _ => false end.

Definition blinfo_to_json (bl_info : value) (addon_id source url : string) : M value :=
  missing_req_keys ← lift (missing_keys REQUIRED_KEYS bl_info);
  if negb (is_nil missing_req_keys) then
    log_call WARNING "Addon %s misses required key(s) %s; skipping this addon."
      [AStr addon_id; AStr (String.concat ", " missing_req_keys)];;
    mret VNone
  else
    missing_rec_keys ← lift (missing_keys RECOMMENDED_KEYS bl_info);
    (if negb (is_nil missing_rec_keys) then
       log_call INFO "Addon %s misses recommended key(s) %s"
         [AStr addon_id; AStr (String.concat ", " missing_rec_keys)]
     else mret tt);;
    json_data ← lift (py_copy bl_info);
    lift (py_update json_data
            (<["download_url" := VStr url]> (<["source" := VStr source]> ∅))).

(** The [ValueError] of an unsupported schema carries the constant part of
    its message; the script appends the version found, which is also the
    argument of the log record. *)
Definition parse_existing_index (index_fname : string) : M value :=
  log_call INFO "Reading existing %s" [AStr index_fname];;
  infile ← open_read index_fname;
  existing_data ← match as_json infile with
                   | NotUtf8 => raise UnicodeDecodeError
                   | NotJson => raise JSONDecodeError
                   | Json doc => mret (json_decode doc)
                   end;
  schema_version ← lift (py_get existing_data "schema-version" (VStr "-missing-"));
  if negb (py_eq_int schema_version CURRENT_SCHEMA_VERSION) then
    log_call FATAL "Unable to load existing data, wrong schema version: %s"
      [AVal schema_version];;
    raise (ValueError "Unsupported schema")
  else lift (py_getitem existing_data "addons").

(** The run of [write_index_file] in which [open] and [json.dump] both
    return: the working directory can be written to and [addon_data] is
    [json_dumpable]. The other runs are not modelled: there [open] raises
    [OSError], or [json.dump] raises after [open] has truncated the file
    and leaves a partial document. The text [json.dump] writes is a single
    Python expression, so read as Python source the file is a module
    without any assignment. *)
Definition write_index_file (index_fname : string) (addon_data : value) : M unit :=
  log_call INFO "Writing addon index to %s" [AStr index_fname];;
  write_file index_fname
    (File (Module [NotAssign]) (Json (json_encode addon_data))).

(** The dictionary [main] hands to [write_index_file]. *)
Definition final_json (addon_data : value) : value :=
  VDict (<["schema-version" := VInt CURRENT_SCHEMA_VERSION]>
           (<["addons" := addon_data]> ∅)).

Record arguments : Type := Arguments_ {
  merge : bool;
  source : string;
  base : string;
  dir : string
}.

Section Script.

(** [urllib.parse.urljoin]. *)
Variable urljoin : string → string → string.

(** The body of the loop of [parse_addons] for one directory entry. *)
Definition parse_addon (addons_dir addons_source addons_base_url : string)
    (item : dir_entry) (json_data : gmap string value) : M (gmap string value) :=
  y ← iter_item addons_dir item;
  match y with
  | None => mret json_data
  | Some (addon_id, addon_fname, addon_ext) =>
      bl_info ← parse_blinfo addon_fname;
      if is_None bl_info then mret json_data
      else
        let url := urljoin addons_base_url (addon_id ++ addon_ext) in
        as_json ← blinfo_to_json bl_info addon_id addons_source url;
        if is_None as_json then mret json_data
        else mret (<[addon_id := as_json]> json_data)
  end.

Fixpoint parse_items (addons_dir addons_source addons_base_url : string)
    (items : list dir_entry) (json_data : gmap string value)
  : M (gmap string value) :=
  match items with
  | [] => mret json_data
  | item :: rest =>
      json_data' ← parse_addon addons_dir addons_source addons_base_url item json_data;
      parse_items addons_dir addons_source addons_base_url rest json_data'
  end.

Definition parse_addons (addons_dir addons_source addons_base_url : string)
  : M (gmap string value) :=
  items ← os_scandir addons_dir;
  parse_items addons_dir addons_source addons_base_url items ∅.

Definition main (args : arguments) : M unit :=
  addon_data ← (if merge args then parse_existing_index "index.json"
                else mret (VDict ∅));
  new_addon_data ← parse_addons (dir args) (source args) (base args);
  addon_data ← lift (py_update addon_data new_addon_data);
  write_index_file "index.json" (final_json addon_data);;
  log_call INFO "Done!" [].

End Script.

(** Writing the index document of an [addons] mapping and reading it back. *)
Definition write_then_read (addons : gmap string value) : M value :=
  write_index_file "index.json" (final_json (VDict addons));;
  parse_existing_index "index.json".

(** The [addons] mapping of the index document in the file system, as
    [json.load] shows it; empty when there is none. *)
Definition index_addons (w : world) : gmap string value :=
  match files w !! "index.json" with
  | Some f =>
      match as_json f with
      | Json doc =>
          match json_decode doc with
          | VDict top =>
              match top !! "addons" with
              | Some (VDict addons) => addons
              | _ => ∅
              end
          | _ => ∅
          end
      | NotUtf8 | NotJson => ∅
      end
  | None => ∅
  end.

(** An index entry with both required keys. *)
Definition has_required_keys (entry : value) : bool :=
  match entry with
  | VDict m => bool_decide ("name" ∈ dom m) && bool_decide ("blender" ∈ dom m)
  | _ => false
  end.

(** ** Observations on runs *)

(** The file [write_index_file] leaves for the dictionary [addon_data]. *)
Definition index_file (addon_data : value) : file :=
  File (Module [NotAssign]) (Json (json_encode (final_json addon_data))).


(** An entry whose name starts with the dot of hidden files. *)
Definition hidden (item : dir_entry) : Prop := startswith (name item) "." = true.

(** The entry point of a directory entry. *)
Definition init_py (addons_dir : string) (item : dir_entry) : string :=
  os_path_join (os_path_join addons_dir (name item)) "__init__.py".

(** The world after the scanner has logged that it skips [item]. *)
Definition skipped (addons_dir : string) (item : dir_entry) (w : world) : world :=
  World (files w) (dirs w)
    (log w ++ [LogRecord INFO "Skipping %s, it does not seem to be a Python package"
                 [AStr (os_path_join addons_dir (name item))]]).


(** Everything but [write_file] only reads files and directories and adds
    to the log. *)
Definition read_only {A} (m : M A) : Prop :=
  ∀ w, files (m w).2 = files w ∧ dirs (m w).2 = dirs w.

(** Two worlds with the same directories and the same files, [index.json]
    apart; their logs may differ. *)
Definition agree (w1 w2 : world) : Prop :=
  dirs w1 = dirs w2 ∧ ∀ p, p ≠ "index.json" → files w1 !! p = files w2 !! p.

(** A computation that does the same in two such worlds. *)
Definition stable {A} (m : M A) : Prop :=
  ∀ w1 w2, agree w1 w2 → (m w1).1 = (m w2).1 ∧ agree (m w1).2 (m w2).2.

(** ** Dictionaries as objects *)

(** [blinfo_to_json] with dictionaries as objects: a heap maps the address
    of a dictionary object to its items, [bl_info] is an address, and so is
    the result ([None] when the add-on is rejected). *)
Module Aliasing.

Definition items_of (obj : nat) (h : gmap nat (gmap string value))
  : gmap string value :=
  match h !! obj with Some items => items | None => ∅ end.

Definition dict_copy (obj : nat) (h : gmap nat (gmap string value))
  : nat * gmap nat (gmap string value) :=
  let new_obj := fresh (dom h) in
  (new_obj, <[new_obj := items_of obj h]> h).

Definition dict_update_in_place (obj : nat) (other : gmap string value)
    (h : gmap nat (gmap string value)) : gmap nat (gmap string value) :=
  alter (λ items, dict_update items other) obj h.

Definition blinfo_to_json (bl_info : nat) (addon_id source url : string)
    (h : gmap nat (gmap string value))
  : M (option nat * gmap nat (gmap string value)) :=
  let items := VDict (items_of bl_info h) in
  missing_req_keys ← lift (missing_keys REQUIRED_KEYS items);
  if negb (is_nil missing_req_keys) then
    log_call WARNING "Addon %s misses required key(s) %s; skipping this addon."
      [AStr addon_id; AStr (String.concat ", " missing_req_keys)];;
    mret (None, h)
  else
    missing_rec_keys ← lift (missing_keys RECOMMENDED_KEYS items);
    (if negb (is_nil missing_rec_keys) then
       log_call INFO "Addon %s misses recommended key(s) %s"
         [AStr addon_id; AStr (String.concat ", " missing_rec_keys)]
     else mret tt);;
    let '(json_data, h1) := dict_copy bl_info h in
    let h2 := dict_update_in_place json_data
                (<["download_url" := VStr url]> (<["source" := VStr source]> ∅)) h1 in
    mret (Some json_data, h2).

End Aliasing.

(** ** Sample data *)

(** A world without files, directories or log records. *)
Definition empty_world : world := World ∅ ∅ [].

(** The declaration of an add-on, as [ast.literal_eval] returns it. *)
Definition foo_bl_info : gmap string value :=
  <["name" := VStr "Foo"]>
    (<["blender" := VTuple [VInt 2; VInt 78; VInt 0]]> ∅).

(** The same declaration with a list for the version. *)
Definition foo_bl_info_lists : gmap string value :=
  <["name" := VStr "Foo"]>
    (<["blender" := VList [VInt 2; VInt 78; VInt 0]]> ∅).

(** An entry without tuples that has a value of every other kind: strings,
    integers, the floats [1.5] and [inf], a boolean, [None], a list and a
    nested mapping. *)
Definition foo_entry_floats : gmap string value :=
  <["name" := VStr "Foo"]>
    (<["blender" := VList [VInt 2; VInt 78; VInt 0]]>
       (<["scale" := VFloat (S754_finite false 3 (-1))]>
          (<["limit" := VFloat (S754_infinity false)]>
             (<["warning" := VNone]>
                (<["experimental" := VBool true]>
                   (<["links" := VDict {["wiki" := VStr "http://localhost/wiki"]}]>
                      ∅)))))).

(** An index of schema version 2, alone in its world. *)
Definition index_v2 : json :=
  JObj (<["schema-version" := JNum 2]> (<["addons" := JObj ∅]> ∅)).

Definition world_v2 : world :=
  World (<["index.json" := File (Module [NotAssign]) (Json index_v2)]> ∅)
        (<["addons" := []]> ∅) [].

(** The command line [--merge addons] and the command line [addons], with
    the defaults of the other options. *)
Definition merge_args : arguments :=
  Arguments_ true "internal" "http://localhost:8000/" "addons".

Definition fresh_args : arguments :=
  Arguments_ false "internal" "http://localhost:8000/" "addons".

(** The module of an add-on: a statement that is not an assignment, then
    [bl_info = {"name": "Foo", "blender": (2, 78, 0)}]. *)
Definition foo_source : list stmt :=
  [NotAssign;
   Assign [Name "bl_info"]
     (Dict [("name", Constant (CStr "Foo"));
            ("blender", Tuple [Constant (CInt 2); Constant (CInt 78); Constant (CInt 0)])])].

(** An index of schema version 1 with the entries [foo] and [bar], next to
    a directory that holds [foo.py]. *)
Definition index_v1 : json :=
  JObj (<["schema-version" := JNum 1]>
          (<["addons" :=
               JObj (<["foo" := JObj (<["name" := JStr "Old foo"]>
                                        (<["blender" := JArr [JNum 2; JNum 70]]> ∅))]>
                       (<["bar" := JObj (<["name" := JStr "Bar"]>
                                           (<["blender" := JArr [JNum 2; JNum 70]]> ∅))]>
                          ∅))]> ∅)).

Definition world_v1 : world :=
  World (<["index.json" := File (Module [NotAssign]) (Json index_v1)]>
           (<["addons/foo.py" := File (Module foo_source) NotJson]> ∅))
        (<["addons" := [DirEntry "foo.py" false]]> ∅) [].

(** An index of schema version 1 whose only entry has no key, next to an
    empty directory. *)
Definition index_without_keys : json :=
  JObj (<["schema-version" := JNum 1]>
          (<["addons" := JObj (<["old" := JObj ∅]> ∅)]> ∅)).

Definition world_without_keys : world :=
  World (<["index.json" := File (Module [NotAssign]) (Json index_without_keys)]> ∅)
        (<["addons" := []]> ∅) [].

(** A directory with hidden entries only. *)
Definition world_hidden : world :=
  World (<["addons/.hidden.py" := File (Module foo_source) NotJson]>
           (<["addons/.git/__init__.py" := File (Module foo_source) NotJson]> ∅))
        (<["addons" := [DirEntry ".git" true; DirEntry ".hidden.py" false]]> ∅) [].

(** A directory with a package that has no [__init__.py] and an add-on in
    one file. *)
Definition world_no_init : world :=
  World (<["addons/foo.py" := File (Module foo_source) NotJson]>
           (<["addons/pkg/readme.txt" := File Malformed NotJson]> ∅))
        (<["addons" := [DirEntry "pkg" true; DirEntry "foo.py" false]]>
           (<["addons/pkg" := [DirEntry "readme.txt" false]]> ∅)) [].

(** A directory with the file [foo.py] and the package [foo]. *)
Definition world_same_id : world :=
  World (<["addons/foo.py" := File (Module foo_source) NotJson]>
           (<["addons/foo/__init__.py" := File (Module foo_source) NotJson]> ∅))
        (<["addons" := [DirEntry "foo.py" false; DirEntry "foo" true]]> ∅) [].

(** The index entry of [foo_bl_info] for a download URL. *)
Definition foo_entry (url : string) : value :=
  VDict (<["download_url" := VStr url]> (<["source" := VStr "internal"]> foo_bl_info)).

(** A directory with [foo.py] and no index yet. *)
Definition world_fresh : world :=
  World (<["addons/foo.py" := File (Module foo_source) NotJson]> ∅)
        (<["addons" := [DirEntry "foo.py" false]]> ∅) [].

(** Files on which [parse_blinfo] fails: a declaration with a name in it,
    a file that is not text, a file that is not Python, a module without
    declaration. *)
Definition world_computed : world :=
  World (<["addons/bar.py" :=
             File (Module [Assign [Name "VERSION"]
                             (Tuple [Constant (CInt 1); Constant (CInt 0)]);
                           Assign [Name "bl_info"]
                             (Dict [("name", Constant (CStr "Bar"));
                                    ("blender", Tuple [Constant (CInt 2);
                                                       Constant (CInt 78);
                                                       Constant (CInt 0)]);
                                    ("version", Name "VERSION")])]) NotJson]>
           (<["addons/bin.py" := File Undecodable NotJson]>
              (<["addons/bad.py" := File Malformed NotJson]>
                 (<["addons/none.py" := File (Module [NotAssign]) NotJson]> ∅))))
        (<["addons" := [DirEntry "bar.py" false]]> ∅) [].

(** ** Further observations *)

(** The entries of a listing that are not hidden. *)
Definition visible (items : list dir_entry) : list dir_entry :=
  filter (λ item, startswith (name item) "." = false) items.

(** The extension of the download of a directory entry. *)
Definition download_ext (item : dir_entry) : string :=
  if is_dir item then ".zip" else ".py".

(** The index entry [entry] stored under [addon_id] comes from an entry of
    the listing [items]. *)
Definition scanned_from (urljoin : string → string → string)
    (addons_source addons_base_url : string) (items : list dir_entry)
    (addon_id : string) (entry : value) : Prop :=
  ∃ item m,
    item ∈ items
    ∧ ¬ hidden item
    ∧ addon_id = (splitext (name item)).1
    ∧ name item = addon_id ++ (splitext (name item)).2
    ∧ entry = VDict m
    ∧ m !! "source" = Some (VStr addons_source)
    ∧ m !! "download_url"
      = Some (VStr (urljoin addons_base_url (addon_id ++ download_ext item))).

(** A statement at which the loop of [parse_blinfo] stops: an assignment
    with a single target that is the name [bl_info]. *)
Definition is_declaration (s : stmt) : bool :=
  match s with
  | Assign [target] _ => String.eqb (target_id target) "bl_info"
  | _ => false
  end.

(** A module in which the declaration comes after three statements that
    are not declarations, and before a second, malformed one. *)
Definition not_declarations : list stmt :=
  [NotAssign;
   Assign [Name "x"; Name "bl_info"] (Name "y");
   Assign [Attribute (Name "self") "bl_info"] (Name "y")].

Definition two_declarations : file :=
  File (Module (not_declarations
                ++ Assign [Name "bl_info"] (Constant (CInt 1))
                :: [Assign [Name "bl_info"] (Name "y")])) NotJson.

Definition world_two_declarations : world :=
  World {["a.py" := two_declarations]} ∅ [].

(** The keys of a list that a dictionary does not have, in the order of the
    list. *)
Definition absent_keys (keys : list string) (m : gmap string value) : list string :=
  filter (λ key, key ∉ dom m) keys.

(** The world with one more log record. *)
Definition logged (w : world) (r : log_record) : world :=
  World (files w) (dirs w) (log w ++ [r]).

(** Number of constructors of a document; the measure behind [json_ind']. *)
Fixpoint json_size (j : json) : nat :=
  match j with
  | JArr l => S (foldr (λ x acc, json_size x + acc)%nat 0%nat l)
  | JObj m => S (map_fold (λ _ x acc, json_size x + acc)%nat 0%nat m)
  | _ => 1%nat
  end.

(** The schema version of a document is the one the script understands. *)
Definition schema_ok (sv : json) : bool :=
  py_eq_int (json_decode sv) CURRENT_SCHEMA_VERSION.

(** Two worlds with the same files and the same directory paths; what the
    directories list and the logs may differ. *)
Definition same_paths (w1 w2 : world) : Prop :=
  files w1 = files w2 ∧ dom (dirs w1) = dom (dirs w2).

(** A computation that does the same in two such worlds. *)
Definition blind {A} (m : M A) : Prop :=
  ∀ w1 w2, same_paths w1 w2 → (m w1).1 = (m w2).1 ∧ same_paths (m w1).2 (m w2).2.

(** The ID of a directory entry. *)
Definition entry_id (item : dir_entry) : string := (splitext (name item)).1.


(** The overlay of the contributions [c] of a list of entries on a
    mapping, first entry first, up to the first exception. *)
Fixpoint overlay_all (c : dir_entry → result (gmap string value))
    (items : list dir_entry) (acc : gmap string value)
  : result (gmap string value) :=
  match items with
  | [] => Ret acc
  | item :: rest =>
      match c item with
      | Ret stored => overlay_all c rest (stored ∪ acc)
      | Raise e => Raise e
      end
  end.

(** A directory with a file and a package, listed in the two orders. *)
Definition world_two : world :=
  World (<["addons/foo.py" := File (Module foo_source) NotJson]>
           (<["addons/bar/__init__.py" := File (Module foo_source) NotJson]> ∅))
        (<["addons" := [DirEntry "foo.py" false; DirEntry "bar" true]]> ∅) [].

Definition world_two_reversed : world :=
  World (files world_two)
        (<["addons" := [DirEntry "bar" true; DirEntry "foo.py" false]]> ∅) [].

(** * Properties *)

(** ** The path and string functions on examples *)

Example splitext_examples :
  splitext "foo.py" = ("foo", ".py")
  ∧ splitext "foo" = ("foo", "")
  ∧ splitext "foo.tar.gz" = ("foo.tar", ".gz")
  ∧ splitext ".hidden" = (".hidden", "")
  ∧ splitext "dir.d/file" = ("dir.d/file", "").
Proof. repeat split. Qed.

Example os_path_join_examples :
  os_path_join "addons" "foo.py" = "addons/foo.py"
  ∧ os_path_join "addons/" "foo.py" = "addons/foo.py"
  ∧ os_path_join "" "foo.py" = "foo.py"
  ∧ os_path_join "addons" "/abs" = "/abs".
Proof. repeat split. Qed.

Example py_contains_examples :
  py_contains (VDict foo_bl_info) "name" = Ret true
  ∧ py_contains (VDict foo_bl_info) "author" = Ret false
  ∧ py_contains (VStr "rename") "name" = Ret true
  ∧ py_contains (VList [VStr "name"]) "name" = Ret true
  ∧ py_contains (VInt 3) "name" = Raise TypeError.
Proof. repeat split. Qed.

Example literal_eval_examples :
  literal_eval (Dict [("name", Constant (CStr "Foo"));
                      ("blender", Tuple [Constant (CInt 2); Constant (CInt 78);
                                         Constant (CInt 0)])])
  = Ret (VDict foo_bl_info)
  ∧ literal_eval (Dict [("a", Constant (CInt 1)); ("a", Constant (CInt 2))])
    = Ret (VDict {["a" := VInt 2]})
  ∧ literal_eval (USub (Constant (CInt 1))) = Ret (VInt (-1))
  ∧ literal_eval (USub (Constant (CBool true))) = malformed
  ∧ literal_eval (List_ [Constant CNone; Name "x"]) = malformed.
Proof. repeat split; vm_compute; reflexivity. Qed.

(** ** Induction on values *)

Lemma value_size_elem (v : value) (l : list value) :
  v ∈ l → (value_size v ≤ foldr (λ x acc, value_size x + acc) 0 l)%nat.
Proof.
  induction 1 as [x l|x y l _ IH]; simpl; lia.
Qed.

Lemma value_size_lookup (m : gmap string value) (k : string) (v : value) :
  m !! k = Some v →
  (value_size v ≤ map_fold (λ _ x acc, value_size x + acc) 0 m)%nat.
Proof.
  intros Hk.
  rewrite (map_fold_delete_L _ _ k v m); [lia | intros; lia | done].
Qed.

(** The induction principle of [value] with the hypotheses for the elements
    of a sequence and the items of a dictionary. *)
Lemma value_ind' (P : value → Prop) :
  P VNone →
  (∀ b, P (VBool b)) →
  (∀ n, P (VInt n)) →
  (∀ f, P (VFloat f)) →
  (∀ s, P (VStr s)) →
  (∀ l, Forall P l → P (VTuple l)) →
  (∀ l, Forall P l → P (VList l)) →
  (∀ m, map_Forall (λ _, P) m → P (VDict m)) →
  ∀ v, P v.
Proof.
  intros HN HB HI HF HS HT HL HD v.
  remember (value_size v) as n eqn:Hn.
  revert v Hn. induction (lt_wf n) as [n _ IH]. intros v ->.
  destruct v as [| | | | |l|l|m]; auto.
  - apply HT, Forall_forall. intros x Hx.
    apply (IH (value_size x)); [|done].
    pose proof (value_size_elem x l Hx). simpl. lia.
  - apply HL, Forall_forall. intros x Hx.
    apply (IH (value_size x)); [|done].
    pose proof (value_size_elem x l Hx). simpl. lia.
  - apply HD. intros k x Hk.
    apply (IH (value_size x)); [|done].
    pose proof (value_size_lookup m k x Hk). simpl. lia.
Qed.

(** ** json.dump followed by json.load *)

Lemma json_decode_encode (v : value) :
  json_decode (json_encode v) = tuples_to_lists v.
Proof.
  induction v as [| | | | |l IH|l IH|m IH] using value_ind'; simpl; try done.
  - f_equal. rewrite <- list_fmap_compose. apply list_fmap_ext.
    intros i x Hx. apply (Forall_lookup_1 _ _ _ _ IH Hx).
  - f_equal. rewrite <- list_fmap_compose. apply list_fmap_ext.
    intros i x Hx. apply (Forall_lookup_1 _ _ _ _ IH Hx).
  - f_equal. rewrite <- map_fmap_compose. apply map_fmap_ext.
    intros k x Hx. apply (IH k x Hx).
Qed.

Lemma tuple_free_list (l : list value) :
  foldr (λ x acc, tuple_free x && acc) true l = true ↔
  Forall (λ x, tuple_free x = true) l.
Proof.
  induction l as [|x l IH]; simpl.
  - split; [constructor | done].
  - rewrite andb_true_iff, IH, Forall_cons. done.
Qed.

Lemma tuple_free_dict (m : gmap string value) :
  map_fold (λ _ x acc, tuple_free x && acc) true m = true ↔
  map_Forall (λ _ x, tuple_free x = true) m.
Proof.
  induction m as [|k x m Hk IH] using map_ind.
  - rewrite map_fold_empty. split; [intros _; apply map_Forall_empty | done].
  - rewrite map_fold_insert_L; [| |done].
    + rewrite andb_true_iff, IH, map_Forall_insert by done. done.
    + intros. rewrite !andb_assoc. f_equal. apply andb_comm.
Qed.

Lemma tuples_to_lists_id (v : value) :
  tuple_free v = true → tuples_to_lists v = v.
Proof.
  induction v as [| | | | |l IH|l IH|m IH] using value_ind'; simpl; try done.
  - intros Hl%tuple_free_list. f_equal.
    rewrite <- (list_fmap_id l) at 2. apply list_fmap_ext.
    intros i x Hx. apply (Forall_lookup_1 _ _ _ _ IH Hx).
    apply (Forall_lookup_1 _ _ _ _ Hl Hx).
  - intros Hm%tuple_free_dict. f_equal.
    rewrite <- (map_fmap_id m) at 2. apply map_fmap_ext.
    intros k x Hx. apply (IH k x Hx). apply (Hm k x Hx).
Qed.

(** ** Running computations *)

Ltac munfold :=
  unfold mbind, M_bind, bind, mret, M_ret, ret, raise, lift in *.

Lemma tuples_to_lists_final_json (addon_data : value) :
  tuples_to_lists (final_json addon_data) = final_json (tuples_to_lists addon_data).
Proof.
  unfold final_json. cbn [tuples_to_lists].
  by rewrite !fmap_insert, fmap_empty.
Qed.

Lemma final_json_schema (addon_data : value) :
  py_get (final_json addon_data) "schema-version" (VStr "-missing-")
  = Ret (VInt CURRENT_SCHEMA_VERSION).
Proof. unfold final_json, py_get. by rewrite lookup_insert_eq. Qed.

Lemma final_json_addons (addon_data : value) :
  py_getitem (final_json addon_data) "addons" = Ret addon_data.
Proof.
  unfold final_json, py_getitem.
  rewrite lookup_insert_ne by done. by rewrite lookup_insert_eq.
Qed.

(** Reading an index whose document is the encoding of [final_json]. *)
Lemma parse_existing_index_written (index_fname : string) (addon_data : value)
    (py : py_source) (w : world) :
  files w !! index_fname = Some (File py (Json (json_encode (final_json addon_data)))) →
  ∃ w', parse_existing_index index_fname w = (Ret (tuples_to_lists addon_data), w')
        ∧ files w' = files w ∧ dirs w' = dirs w.
Proof.
  intros Hf. unfold parse_existing_index, log_call, open_read. munfold.
  cbn [files dirs log]. rewrite Hf. cbn [as_json].
  rewrite json_decode_encode, tuples_to_lists_final_json, final_json_schema.
  cbn [py_eq_int]. unfold CURRENT_SCHEMA_VERSION. cbn [Z.eqb Pos.eqb negb].
  rewrite final_json_addons. eauto.
Qed.

Lemma write_then_read_spec (addons : gmap string value) (w : world) :
  ∃ w', write_then_read addons w
        = (Ret (VDict (tuples_to_lists <$> addons)), w').
Proof.
  unfold write_then_read, write_index_file, write_file, log_call. munfold.
  edestruct (parse_existing_index_written "index.json" (VDict addons)) as (w' & Hr & _);
    [|rewrite Hr; eauto].
  cbn [files]. by rewrite lookup_insert_eq.
Qed.

(** ** Round trip through index.json *)

(** C4, as amended. For an addons mapping that [json.dump] serialises
    (strings, numbers, booleans, [None], tuples, lists and nested mappings
    with string keys, no integer beyond the digit limit of the
    interpreter), writing its index document with [write_index_file] and
    reading it back with [parse_existing_index] returns the mapping with
    every tuple turned into the list of its elements. The mapping read is
    equal to the mapping written when neither a tuple nor a NaN occurs in
    it. *)
Theorem write_then_read_roundtrip (addons : gmap string value) (w : world) :
  json_dumpable (VDict addons) = true →
  (write_then_read addons w).1 = Ret (VDict (tuples_to_lists <$> addons))
  ∧ (tuple_free (VDict addons) = true →
     nan_free (VDict addons) = true →
     (write_then_read addons w).1 = Ret (VDict addons)).
Proof.
  intros _.
  destruct (write_then_read_spec addons w) as [w' Hr]. rewrite Hr. cbn [fst].
  split; [done|]. intros Hfree _.
  apply tuples_to_lists_id in Hfree. cbn [tuples_to_lists] in Hfree.
  by rewrite Hfree.
Qed.

Lemma write_then_read_roundtrip_witness :
  json_dumpable (VDict {["foo" := VDict foo_entry_floats]}) = true
  ∧ tuple_free (VDict {["foo" := VDict foo_entry_floats]}) = true
  ∧ nan_free (VDict {["foo" := VDict foo_entry_floats]}) = true
  ∧ (write_then_read {["foo" := VDict foo_entry_floats]} empty_world).1
    = Ret (VDict {["foo" := VDict foo_entry_floats]}).
Proof.
  assert (Hdump : json_dumpable (VDict {["foo" := VDict foo_entry_floats]}) = true)
    by (vm_compute; reflexivity).
  split; [exact Hdump|].
  split; [vm_compute; reflexivity|].
  split; [vm_compute; reflexivity|].
  apply (proj2 (write_then_read_roundtrip _ empty_world Hdump));
    vm_compute; reflexivity.
Defined.

(** C4 fails as stated for a tuple, which is what the [blender] version of
    an add-on is: it is read back as a list, and a list is not equal to a
    tuple. *)
Lemma write_then_read_tuple_counterexample :
  (write_then_read {["foo" := VDict foo_bl_info]} empty_world).1
  ≠ Ret (VDict {["foo" := VDict foo_bl_info]}).
Proof.
  destruct (write_then_read_spec {["foo" := VDict foo_bl_info]} empty_world)
    as [w' Hr].
  rewrite Hr. cbn [fst]. intros H.
  assert (Hb : ∀ m1 m2 : gmap string value,
             Ret (VDict m1) = Ret (VDict m2) → m1 = m2) by (intros ?? [=]; done).
  assert (Hs : ∀ m1 m2 : gmap string value,
             Some (VDict m1) = Some (VDict m2) → m1 = m2) by (intros ?? [=]; done).
  apply Hb in H.
  apply (f_equal (λ m, m !! "foo")) in H.
  rewrite lookup_fmap, !lookup_singleton_eq in H.
  apply Hs in H.
  apply (f_equal (λ m : gmap string value, m !! "blender")) in H.
  vm_compute in H. discriminate H.
Qed.

(** ** Loading an index of another schema version *)

Lemma parse_existing_index_wrong_schema (index_fname : string) (w : world)
    (f : file) (members : gmap string json) :
  files w !! index_fname = Some f →
  as_json f = Json (JObj members) →
  (members !! "schema-version" = None
   ∨ ∃ j, members !! "schema-version" = Some j
          ∧ py_eq_int (json_decode j) CURRENT_SCHEMA_VERSION = false) →
  ∃ w', parse_existing_index index_fname w = (Raise (ValueError "Unsupported schema"), w')
        ∧ files w' = files w ∧ dirs w' = dirs w.
Proof.
  intros Hf Hj Hv. unfold parse_existing_index, log_call, open_read. munfold.
  cbn [files dirs log]. rewrite Hf, Hj. cbn [json_decode py_get].
  rewrite lookup_fmap.
  destruct Hv as [-> | (j & -> & Hne)]; cbn [fmap option_fmap option_map].
  - cbn [py_eq_int negb files dirs]. eauto.
  - rewrite Hne. cbn [negb files dirs]. eauto.
Qed.

(** C5. In merge mode, when the ['schema-version'] of the existing index
    document is missing or is not equal ([!=]) to [CURRENT_SCHEMA_VERSION],
    which is 1, [main] ends with the [ValueError] of
    [parse_existing_index], and the files are those there were before the
    run: nothing is written and [index.json] is left as it was. *)
Theorem main_aborts_on_schema_mismatch (urljoin : string → string → string)
    (args : arguments) (w : world) (f : file) (members : gmap string json) :
  merge args = true →
  files w !! "index.json" = Some f →
  as_json f = Json (JObj members) →
  (members !! "schema-version" = None
   ∨ ∃ j, members !! "schema-version" = Some j
          ∧ py_eq_int (json_decode j) CURRENT_SCHEMA_VERSION = false) →
  ∃ w', main urljoin args w = (Raise (ValueError "Unsupported schema"), w')
        ∧ files w' = files w ∧ dirs w' = dirs w.
Proof.
  intros Hm Hf Hj Hv.
  destruct (parse_existing_index_wrong_schema "index.json" w f members Hf Hj Hv)
    as (w' & Hr & Hfs).
  exists w'. split; [|done].
  unfold main. rewrite Hm. munfold. by rewrite Hr.
Qed.

Lemma main_aborts_on_schema_mismatch_witness :
  ∃ w', main (λ b r, b ++ r) merge_args world_v2
        = (Raise (ValueError "Unsupported schema"), w')
        ∧ files w' = files world_v2 ∧ dirs w' = dirs world_v2.
Proof.
  apply (main_aborts_on_schema_mismatch (λ b r, b ++ r) merge_args world_v2
           (File (Module [NotAssign]) (Json index_v2))
           (<["schema-version" := JNum 2]> (<["addons" := JObj ∅]> ∅))).
  - reflexivity.
  - reflexivity.
  - reflexivity.
  - right. exists (JNum 2). split; reflexivity.
Defined.

(** ** Computations that leave the file system alone *)

Lemma read_only_ret {A} (a : A) : read_only (mret a).
Proof. done. Qed.

Lemma read_only_raise {A} (e : exn) : read_only (@raise A e).
Proof. done. Qed.

Lemma read_only_lift {A} (r : result A) : read_only (lift r).
Proof. done. Qed.

Lemma read_only_log_call (l : level) (fmt : string) (a : list log_arg) :
  read_only (log_call l fmt a).
Proof. done. Qed.

Lemma read_only_open_read (fname : string) : read_only (open_read fname).
Proof. intros w. unfold open_read. by destruct (files w !! fname). Qed.

Lemma read_only_os_scandir (path : string) : read_only (os_scandir path).
Proof. intros w. unfold os_scandir. by destruct (dirs w !! path). Qed.

Lemma read_only_os_path_exists (path : string) : read_only (os_path_exists path).
Proof. done. Qed.

Lemma read_only_bind {A B} (m : M A) (k : A → M B) :
  read_only m → (∀ a, read_only (k a)) → read_only (m ≫= k).
Proof.
  intros Hm Hk w. munfold. specialize (Hm w).
  destruct (m w) as [[a|e] w1]; cbn [snd] in *; [|done].
  destruct (Hk a w1) as [-> ->]. done.
Qed.

Create HintDb read_only.
#[local] Hint Resolve read_only_ret read_only_raise read_only_lift
  read_only_log_call read_only_open_read read_only_os_scandir
  read_only_os_path_exists : read_only.

Ltac read_only_step :=
  match goal with
  | |- read_only (mbind _ _) => apply read_only_bind; [|intros ?]
  | |- read_only (if ?b then _ else _) => destruct b
  | |- read_only (match ?x with _ => _ end) => destruct x
  | |- read_only (let '(_, _) := ?x in _) => destruct x
  | |- _ => solve [auto with read_only]
  end.

Ltac solve_read_only := repeat read_only_step.

Lemma read_only_iter_item (addons_dir : string) (item : dir_entry) :
  read_only (iter_item addons_dir item).
Proof. unfold iter_item. solve_read_only. Qed.

Lemma read_only_find_blinfo (addon_fname : string) (body : list stmt) :
  read_only (find_blinfo addon_fname body).
Proof.
  induction body as [|[targets rhs|] rest IH]; cbn [find_blinfo]; [solve_read_only| |done].
  destruct targets as [|target [|? ?]]; [done| |done].
  solve_read_only.
Qed.

Lemma read_only_parse_blinfo (addon_fname : string) :
  read_only (parse_blinfo addon_fname).
Proof.
  unfold parse_blinfo. pose proof read_only_find_blinfo. solve_read_only.
Qed.

Lemma read_only_blinfo_to_json (bl_info : value) (addon_id source url : string) :
  read_only (blinfo_to_json bl_info addon_id source url).
Proof. unfold blinfo_to_json. solve_read_only. Qed.

Lemma read_only_parse_existing_index (index_fname : string) :
  read_only (parse_existing_index index_fname).
Proof. unfold parse_existing_index. solve_read_only. Qed.

#[local] Hint Resolve read_only_iter_item read_only_parse_blinfo
  read_only_blinfo_to_json read_only_parse_existing_index : read_only.

Section ScriptReadOnly.

Variable urljoin : string → string → string.

Lemma read_only_parse_addon (addons_dir addons_source addons_base_url : string)
    (item : dir_entry) (json_data : gmap string value) :
  read_only (parse_addon urljoin addons_dir addons_source addons_base_url item json_data).
Proof. unfold parse_addon. solve_read_only. Qed.

Lemma read_only_parse_items (addons_dir addons_source addons_base_url : string)
    (items : list dir_entry) (json_data : gmap string value) :
  read_only (parse_items urljoin addons_dir addons_source addons_base_url items json_data).
Proof.
  revert json_data. induction items as [|item rest IH]; intros json_data;
    cbn [parse_items]; [done|].
  apply read_only_bind; [apply read_only_parse_addon | auto].
Qed.

Lemma read_only_parse_addons (addons_dir addons_source addons_base_url : string) :
  read_only (parse_addons urljoin addons_dir addons_source addons_base_url).
Proof.
  unfold parse_addons. pose proof read_only_parse_items. solve_read_only.
Qed.

End ScriptReadOnly.

(** ** What main writes *)

Section ScriptMain.

Variable urljoin : string → string → string.

Lemma main_fresh (args : arguments) (w w1 : world) (new : gmap string value) :
  merge args = false →
  parse_addons urljoin (dir args) (source args) (base args) w = (Ret new, w1) →
  ∃ w2, main urljoin args w = (Ret tt, w2)
        ∧ files w2 = <["index.json" := index_file (VDict new)]> (files w)
        ∧ dirs w2 = dirs w.
Proof.
  intros Hm Hscan.
  destruct (read_only_parse_addons urljoin (dir args) (source args) (base args) w)
    as [Hf Hd]. rewrite Hscan in Hf, Hd. cbn [snd] in Hf, Hd.
  unfold main. rewrite Hm. munfold. rewrite Hscan.
  cbn [py_update]. unfold dict_update. rewrite (right_id_L ∅ (∪)).
  unfold write_index_file, write_file, log_call. munfold. cbn [files dirs log].
  eexists. split; [reflexivity|]. cbn [files dirs]. by rewrite Hf, Hd.
Qed.

Lemma main_merge (args : arguments) (w w1 w2 : world) (old new : gmap string value) :
  merge args = true →
  parse_existing_index "index.json" w = (Ret (VDict old), w1) →
  parse_addons urljoin (dir args) (source args) (base args) w1 = (Ret new, w2) →
  ∃ w3, main urljoin args w = (Ret tt, w3)
        ∧ files w3 = <["index.json" := index_file (VDict (dict_update old new))]> (files w)
        ∧ dirs w3 = dirs w.
Proof.
  intros Hm Hold Hscan.
  destruct (read_only_parse_existing_index "index.json" w) as [Hf1 Hd1].
  rewrite Hold in Hf1, Hd1. cbn [snd] in Hf1, Hd1.
  destruct (read_only_parse_addons urljoin (dir args) (source args) (base args) w1)
    as [Hf Hd]. rewrite Hscan in Hf, Hd. cbn [snd] in Hf, Hd.
  unfold main. rewrite Hm. munfold. rewrite Hold, Hscan.
  cbn [py_update].
  unfold write_index_file, write_file, log_call. munfold. cbn [files dirs log].
  eexists. split; [reflexivity|]. cbn [files dirs]. by rewrite Hf, Hd, Hf1, Hd1.
Qed.

(** A run of [main] that ends normally went through these steps. *)
Lemma main_inv (args : arguments) (w w' : world) :
  main urljoin args w = (Ret tt, w') →
  ∃ old new w1 w2,
    (if merge args
     then parse_existing_index "index.json" w = (Ret (VDict old), w1)
     else old = ∅ ∧ w1 = w)
    ∧ parse_addons urljoin (dir args) (source args) (base args) w1 = (Ret new, w2)
    ∧ files w' = <["index.json" := index_file (VDict (dict_update old new))]> (files w)
    ∧ dirs w' = dirs w.
Proof.
  intros Hmain.
  destruct (merge args) eqn:Hm.
  - destruct (parse_existing_index "index.json" w) as [[prior|e] w1] eqn:Hold.
    2:{ unfold main in Hmain. rewrite Hm in Hmain. munfold.
        rewrite Hold in Hmain. done. }
    destruct (parse_addons urljoin (dir args) (source args) (base args) w1)
      as [[new|e] w2] eqn:Hscan.
    2:{ unfold main in Hmain. rewrite Hm in Hmain. munfold.
        rewrite Hold, Hscan in Hmain. done. }
    destruct prior as [| | | | | | |old];
      try (unfold main in Hmain; rewrite Hm in Hmain; munfold;
           rewrite Hold, Hscan in Hmain; done).
    destruct (main_merge args w w1 w2 old new Hm Hold Hscan) as (w3 & Hr & Hf & Hd).
    rewrite Hr in Hmain. injection Hmain as <-.
    exists old, new, w1, w2. done.
  - destruct (parse_addons urljoin (dir args) (source args) (base args) w)
      as [[new|e] w2] eqn:Hscan.
    2:{ unfold main in Hmain. rewrite Hm in Hmain. munfold.
        rewrite Hscan in Hmain. done. }
    destruct (main_fresh args w w2 new Hm Hscan) as (w3 & Hr & Hf & Hd).
    rewrite Hr in Hmain. injection Hmain as <-.
    exists ∅, new, w, w2. unfold dict_update. rewrite (right_id_L ∅ (∪)). done.
Qed.

End ScriptMain.

(** ** Merging with an existing index *)

Lemma dict_update_lookup (old new : gmap string value) (addon_id : string) :
  dict_update old new !! addon_id
  = match new !! addon_id with
    | Some entry => Some entry
    | None => old !! addon_id
    end.
Proof.
  unfold dict_update. rewrite lookup_union.
  by destruct (new !! addon_id), (old !! addon_id).
Qed.



(** ** Required keys *)

Lemma missing_required_keys_dict (m : gmap string value) :
  missing_keys REQUIRED_KEYS (VDict m) = Ret [] ↔
  "name" ∈ dom m ∧ "blender" ∈ dom m.
Proof.
  unfold REQUIRED_KEYS. cbn [missing_keys py_contains].
  do 2 case_bool_decide; split; (done || tauto).
Qed.

Lemma has_required_keys_dict (m : gmap string value) :
  has_required_keys (VDict m) = true ↔ "name" ∈ dom m ∧ "blender" ∈ dom m.
Proof.
  cbn [has_required_keys]. rewrite andb_true_iff, !bool_decide_eq_true. done.
Qed.

Lemma has_required_keys_tuples_to_lists (entry : value) :
  has_required_keys (tuples_to_lists entry) = has_required_keys entry.
Proof.
  destruct entry; cbn [tuples_to_lists has_required_keys]; try done.
  by rewrite dom_fmap_L.
Qed.

(** What [blinfo_to_json] returns when it returns: [None], or a dictionary
    made of the items of [bl_info] and the two added ones. *)
Lemma blinfo_to_json_inv (bl_info : value) (addon_id source url : string)
    (v : value) (w w' : world) :
  blinfo_to_json bl_info addon_id source url w = (Ret v, w') →
  v = VNone
  ∨ ∃ m, bl_info = VDict m
         ∧ "name" ∈ dom m ∧ "blender" ∈ dom m
         ∧ v = VDict (dict_update m (<["download_url" := VStr url]>
                                       (<["source" := VStr source]> ∅))).
Proof.
  unfold blinfo_to_json. munfold. intros H.
  destruct (missing_keys REQUIRED_KEYS bl_info) as [req|e] eqn:Hreq; [|done].
  destruct req as [|k req]; cbn [is_nil negb] in H.
  2:{ left. unfold log_call in H. by injection H as <- _. }
  destruct (missing_keys RECOMMENDED_KEYS bl_info) as [rec|e]; [|done].
  right.
  assert (Hcopy : ∀ w1, match py_copy bl_info with
                        | Ret json_data =>
                            (py_update json_data
                               (<["download_url" := VStr url]>
                                  (<["source" := VStr source]> ∅)), w1)
                        | Raise e => (Raise e, w1)
                        end = (Ret v, w') →
                  ∃ m, bl_info = VDict m ∧ v = VDict (dict_update m
                         (<["download_url" := VStr url]> (<["source" := VStr source]> ∅)))).
  { intros w1 Hc. destruct bl_info as [| | | | | | |m]; try done.
    cbn [py_copy py_update] in Hc. injection Hc as <- _. eauto. }
  destruct (negb (is_nil rec)); unfold log_call in H; cbn [files dirs log] in H;
    apply Hcopy in H as (m & -> & ->); exists m;
    apply missing_required_keys_dict in Hreq; tauto.
Qed.

Lemma blinfo_to_json_valid (bl_info : value) (addon_id source url : string)
    (v : value) (w w' : world) :
  blinfo_to_json bl_info addon_id source url w = (Ret v, w') →
  is_None v = false → has_required_keys v = true.
Proof.
  intros [-> | (m & -> & Hn & Hb & ->)]%blinfo_to_json_inv; [done|].
  intros _. apply has_required_keys_dict.
  unfold dict_update. rewrite !dom_union_L. set_solver.
Qed.

Section ScriptRequiredKeys.

Variable urljoin : string → string → string.

Lemma parse_addon_valid (addons_dir addons_source addons_base_url : string)
    (item : dir_entry) (json_data json_data' : gmap string value) (w w' : world) :
  map_Forall (λ _ entry, has_required_keys entry = true) json_data →
  parse_addon urljoin addons_dir addons_source addons_base_url item json_data w
  = (Ret json_data', w') →
  map_Forall (λ _ entry, has_required_keys entry = true) json_data'.
Proof.
  intros Hjd. unfold parse_addon. munfold. intros H.
  destruct (iter_item addons_dir item w) as [[[[[addon_id addon_fname] addon_ext]|]|e] w1];
    [| by injection H as <- _ | done].
  destruct (parse_blinfo addon_fname w1) as [[bl_info|e] w2]; [|done].
  destruct (is_None bl_info); [by injection H as <- _|].
  destruct (blinfo_to_json bl_info addon_id addons_source _ w2)
    as [[as_json|e] w3] eqn:Hjson; [|done].
  destruct (is_None as_json) eqn:Hnone; injection H as <- _; [done|].
  apply map_Forall_insert_2; [|done].
  by eapply blinfo_to_json_valid.
Qed.

Lemma parse_items_valid (addons_dir addons_source addons_base_url : string)
    (items : list dir_entry) (json_data json_data' : gmap string value) (w w' : world) :
  map_Forall (λ _ entry, has_required_keys entry = true) json_data →
  parse_items urljoin addons_dir addons_source addons_base_url items json_data w
  = (Ret json_data', w') →
  map_Forall (λ _ entry, has_required_keys entry = true) json_data'.
Proof.
  revert json_data w. induction items as [|item rest IH]; intros json_data w Hjd;
    cbn [parse_items]; munfold.
  - by intros [= <- _].
  - destruct (parse_addon urljoin addons_dir addons_source addons_base_url item json_data w)
      as [[jd1|e] w1] eqn:H1; [|done].
    intros H. eapply IH; [|exact H]. by eapply parse_addon_valid.
Qed.

(** Every entry of a scan has both required keys. *)
Lemma parse_addons_valid (addons_dir addons_source addons_base_url : string)
    (json_data : gmap string value) (w w' : world) :
  parse_addons urljoin addons_dir addons_source addons_base_url w = (Ret json_data, w') →
  map_Forall (λ _ entry, has_required_keys entry = true) json_data.
Proof.
  unfold parse_addons. munfold.
  destruct (os_scandir addons_dir w) as [[items|e] w1]; [|done].
  apply parse_items_valid, map_Forall_empty.
Qed.

End ScriptRequiredKeys.

Lemma index_addons_written (w : world) (addons : gmap string value) :
  files w !! "index.json" = Some (index_file (VDict addons)) →
  index_addons w = tuples_to_lists <$> addons.
Proof.
  intros Hf. unfold index_addons. rewrite Hf. cbn [index_file as_json].
  rewrite json_decode_encode, tuples_to_lists_final_json.
  unfold final_json. rewrite lookup_insert_ne by done.
  by rewrite lookup_insert_eq.
Qed.

Lemma index_addons_read (w w1 : world) (old : gmap string value) :
  parse_existing_index "index.json" w = (Ret (VDict old), w1) →
  index_addons w = old.
Proof.
  unfold parse_existing_index, index_addons, log_call, open_read. munfold.
  cbn [files dirs log].
  destruct (files w !! "index.json") as [f|]; [|done].
  destruct (as_json f) as [| |doc]; [done|done|].
  destruct (json_decode doc) as [| | | | | | |top]; try done.
  cbn [py_get py_getitem].
  destruct (negb _); [done|].
  destruct (top !! "addons") as [a|]; [|done].
  by intros [= -> _].
Qed.

(** C2, as amended. When [main] ends normally it has written an index
    document, and every entry of that document has both required keys
    provided that, in merge mode, every entry of the index that was there
    before has them: the entries a scan adds always have both keys (a
    declaration without one of them is dropped), and the entries carried
    over from the existing index are written as they were read. *)
Theorem written_entries_have_required_keys (urljoin : string → string → string)
    (args : arguments) (w w' : world) :
  main urljoin args w = (Ret tt, w') →
  (merge args = true →
   map_Forall (λ _ entry, has_required_keys entry = true) (index_addons w)) →
  ∃ addons,
    files w' !! "index.json" = Some (index_file (VDict addons))
    ∧ index_addons w' = tuples_to_lists <$> addons
    ∧ map_Forall (λ _ entry, has_required_keys entry = true) (index_addons w').
Proof.
  intros Hmain Hprior.
  destruct (main_inv urljoin args w w' Hmain) as (old & new & w1 & w2 & Hold & Hscan & Hf & _).
  assert (Hw : files w' !! "index.json" = Some (index_file (VDict (dict_update old new))))
    by (rewrite Hf; apply lookup_insert_eq).
  exists (dict_update old new). split; [done|].
  pose proof (index_addons_written w' _ Hw) as Hidx. split; [done|].
  rewrite Hidx. apply map_Forall_fmap. intros addon_id entry Hentry.
  cbn [compose]. rewrite has_required_keys_tuples_to_lists.
  rewrite dict_update_lookup in Hentry.
  destruct (new !! addon_id) as [e|] eqn:Hnew.
  - injection Hentry as ->.
    by apply (parse_addons_valid urljoin _ _ _ _ _ _ Hscan addon_id).
  - destruct (merge args).
    + apply index_addons_read in Hold. subst old.
      by apply (Hprior eq_refl addon_id).
    + destruct Hold as [-> _]. by rewrite lookup_empty in Hentry.
Qed.

Lemma written_entries_have_required_keys_witness :
  ∃ addons,
    files (main (λ b r, b ++ r) merge_args world_v1).2 !! "index.json"
    = Some (index_file (VDict addons))
    ∧ index_addons (main (λ b r, b ++ r) merge_args world_v1).2
      = tuples_to_lists <$> addons
    ∧ map_Forall (λ _ entry, has_required_keys entry = true)
        (index_addons (main (λ b r, b ++ r) merge_args world_v1).2).
Proof.
  apply (written_entries_have_required_keys (λ b r, b ++ r) merge_args world_v1).
  - vm_compute. reflexivity.
  - intros _. apply (bool_decide_unpack _). vm_compute. exact I.
Defined.

(** C2 fails as stated for the entries carried over in merge mode: they are
    not checked. An existing index with an entry that has no key at all is
    merged and written with that entry in it. *)
Lemma carried_over_entry_counterexample :
  (main (λ b r, b ++ r) merge_args world_without_keys).1 = Ret tt
  ∧ ¬ map_Forall (λ _ entry, has_required_keys entry = true)
        (index_addons (main (λ b r, b ++ r) merge_args world_without_keys).2).
Proof.
  split; [vm_compute; reflexivity|].
  intros H. specialize (H "old" (VDict ∅)). cbv beta in H.
  assert (Hold : index_addons (main (λ b r, b ++ r) merge_args world_without_keys).2
                 !! "old" = Some (VDict ∅)) by (vm_compute; reflexivity).
  specialize (H Hold). vm_compute in H. discriminate H.
Qed.

(** ** The directory scanner *)

Lemma iter_item_hidden (addons_dir : string) (item : dir_entry) (w : world) :
  hidden item → iter_item addons_dir item w = (Ret None, w).
Proof. unfold hidden, iter_item. by intros ->. Qed.

Lemma iter_items_hidden (addons_dir : string) (items : list dir_entry) (w : world) :
  Forall hidden items → iter_items addons_dir items w = (Ret [], w).
Proof.
  induction 1 as [|item rest Hitem _ IH]; cbn [iter_items]; [done|].
  munfold. by rewrite iter_item_hidden, IH.
Qed.

Section ScriptScanner.

Variable urljoin : string → string → string.

Lemma parse_addon_hidden (addons_dir addons_source addons_base_url : string)
    (item : dir_entry) (json_data : gmap string value) (w : world) :
  hidden item →
  parse_addon urljoin addons_dir addons_source addons_base_url item json_data w
  = (Ret json_data, w).
Proof.
  intros Hh. unfold parse_addon. munfold. by rewrite iter_item_hidden.
Qed.

Lemma parse_items_hidden (addons_dir addons_source addons_base_url : string)
    (items : list dir_entry) (json_data : gmap string value) (w : world) :
  Forall hidden items →
  parse_items urljoin addons_dir addons_source addons_base_url items json_data w
  = (Ret json_data, w).
Proof.
  induction 1 as [|item rest Hitem _ IH]; cbn [parse_items]; [done|].
  munfold. by rewrite parse_addon_hidden.
Qed.

(** C8. An entry whose name starts with ['.'] is skipped by [iter_addons]:
    for a directory all of whose entries are hidden, the generator yields
    nothing and [parse_addons] returns the empty mapping, without a word in
    the log. *)
Theorem parse_addons_hidden_only (addons_dir addons_source addons_base_url : string)
    (items : list dir_entry) (w : world) :
  dirs w !! addons_dir = Some items →
  Forall hidden items →
  iter_addons addons_dir w = (Ret [], w)
  ∧ parse_addons urljoin addons_dir addons_source addons_base_url w = (Ret ∅, w).
Proof.
  intros Hd Hh. unfold iter_addons, parse_addons, os_scandir. munfold.
  rewrite Hd. by rewrite iter_items_hidden, parse_items_hidden.
Qed.

End ScriptScanner.

Lemma parse_addons_hidden_only_witness :
  iter_addons "addons" world_hidden = (Ret [], world_hidden)
  ∧ parse_addons (λ b r, b ++ r) "addons" "internal" "http://localhost:8000/" world_hidden
    = (Ret ∅, world_hidden).
Proof.
  apply (parse_addons_hidden_only (λ b r, b ++ r) "addons" "internal"
           "http://localhost:8000/"
           [DirEntry ".git" true; DirEntry ".hidden.py" false] world_hidden).
  - reflexivity.
  - repeat constructor.
Defined.

(** *** Packages without [__init__.py] *)

Lemma iter_item_no_init (addons_dir : string) (item : dir_entry) (w : world) :
  ¬ hidden item →
  is_dir item = true →
  init_py addons_dir item ∉ dom (files w) →
  init_py addons_dir item ∉ dom (dirs w) →
  iter_item addons_dir item w = (Ret None, skipped addons_dir item w).
Proof.
  unfold hidden, init_py, iter_item, os_path_exists, log_call, skipped.
  intros Hh%not_true_is_false -> Hf Hd. rewrite Hh.
  destruct (splitext (name item)) as [base ext]. munfold.
  rewrite bool_decide_eq_false_2 by tauto. done.
Qed.

Section ScriptPackages.

Variable urljoin : string → string → string.

(** C9. A directory entry (one that is not hidden) without [__init__.py]
    is skipped: the generator yields nothing for it and logs one record at
    level INFO, the mapping built so far is unchanged, no exception is
    raised, and both the generator and the loop of [parse_addons] go on with
    the remaining entries. *)
Theorem package_without_init_skipped
    (addons_dir addons_source addons_base_url : string)
    (item : dir_entry) (rest : list dir_entry)
    (json_data : gmap string value) (w : world) :
  ¬ hidden item →
  is_dir item = true →
  init_py addons_dir item ∉ dom (files w) →
  init_py addons_dir item ∉ dom (dirs w) →
  iter_item addons_dir item w = (Ret None, skipped addons_dir item w)
  ∧ iter_items addons_dir (item :: rest) w
    = iter_items addons_dir rest (skipped addons_dir item w)
  ∧ parse_addon urljoin addons_dir addons_source addons_base_url item json_data w
    = (Ret json_data, skipped addons_dir item w)
  ∧ parse_items urljoin addons_dir addons_source addons_base_url
      (item :: rest) json_data w
    = parse_items urljoin addons_dir addons_source addons_base_url
        rest json_data (skipped addons_dir item w).
Proof.
  intros Hh Hdir Hf Hd.
  pose proof (iter_item_no_init addons_dir item w Hh Hdir Hf Hd) as Hit.
  split; [done|]. split; [|split].
  - cbn [iter_items]. munfold. rewrite Hit.
    by destruct (iter_items addons_dir rest _) as [[ys|e] w1].
  - unfold parse_addon. munfold. by rewrite Hit.
  - cbn [parse_items]. unfold parse_addon. munfold. by rewrite Hit.
Qed.

End ScriptPackages.

Lemma package_without_init_skipped_witness :
  iter_item "addons" (DirEntry "pkg" true) world_no_init
  = (Ret None, skipped "addons" (DirEntry "pkg" true) world_no_init)
  ∧ iter_items "addons" [DirEntry "pkg" true; DirEntry "foo.py" false] world_no_init
    = iter_items "addons" [DirEntry "foo.py" false]
        (skipped "addons" (DirEntry "pkg" true) world_no_init)
  ∧ parse_addon (λ b r, b ++ r) "addons" "internal" "http://localhost:8000/"
      (DirEntry "pkg" true) ∅ world_no_init
    = (Ret ∅, skipped "addons" (DirEntry "pkg" true) world_no_init)
  ∧ parse_items (λ b r, b ++ r) "addons" "internal" "http://localhost:8000/"
      [DirEntry "pkg" true; DirEntry "foo.py" false] ∅ world_no_init
    = parse_items (λ b r, b ++ r) "addons" "internal" "http://localhost:8000/"
        [DirEntry "foo.py" false] ∅
        (skipped "addons" (DirEntry "pkg" true) world_no_init).
Proof.
  apply (package_without_init_skipped (λ b r, b ++ r) "addons" "internal"
           "http://localhost:8000/" (DirEntry "pkg" true)
           [DirEntry "foo.py" false] ∅ world_no_init).
  - unfold hidden. vm_compute. discriminate.
  - reflexivity.
  - apply (bool_decide_unpack _). vm_compute. exact I.
  - apply (bool_decide_unpack _). vm_compute. exact I.
Defined.

(** *** Two units with one ID *)

Section ScriptSameId.

Variable urljoin : string → string → string.

Lemma parse_items_app (addons_dir addons_source addons_base_url : string)
    (items1 items2 : list dir_entry) (json_data : gmap string value) (w : world) :
  parse_items urljoin addons_dir addons_source addons_base_url
    (items1 ++ items2) json_data w
  = match parse_items urljoin addons_dir addons_source addons_base_url
            items1 json_data w with
    | (Ret acc, w1) =>
        parse_items urljoin addons_dir addons_source addons_base_url items2 acc w1
    | (Raise e, w1) => (Raise e, w1)
    end.
Proof.
  revert json_data w. induction items1 as [|item rest IH]; intros json_data w;
    cbn [app parse_items]; [done|].
  munfold.
  destruct (parse_addon urljoin addons_dir addons_source addons_base_url item json_data w)
    as [[jd1|e] w1]; [apply IH | done].
Qed.

(** The mapping built so far has no part in what the loop body does for an
    entry: the result, the exception and the log are those of a run from
    the empty mapping, and what that run stores goes on top of what was
    there. *)
Lemma parse_addon_acc (addons_dir addons_source addons_base_url : string)
    (item : dir_entry) (json_data : gmap string value) (w : world) :
  parse_addon urljoin addons_dir addons_source addons_base_url item json_data w
  = match parse_addon urljoin addons_dir addons_source addons_base_url item ∅ w with
    | (Ret stored, w') => (Ret (stored ∪ json_data), w')
    | (Raise e, w') => (Raise e, w')
    end.
Proof.
  unfold parse_addon. munfold.
  destruct (iter_item addons_dir item w) as [[[[[addon_id addon_fname] addon_ext]|]|e] w1];
    [| by rewrite (left_id_L ∅ (∪)) | done].
  destruct (parse_blinfo addon_fname w1) as [[bl_info|e] w2]; [|done].
  destruct (is_None bl_info); [by rewrite (left_id_L ∅ (∪))|].
  destruct (blinfo_to_json bl_info addon_id addons_source _ w2) as [[as_json|e] w3];
    [|done].
  destruct (is_None as_json); [by rewrite (left_id_L ∅ (∪))|].
  by rewrite insert_union_singleton_l, insert_empty.
Qed.

(** C10. When the loop of [parse_addons] comes to a unit that yields an
    entry for an ID, that entry is stored under the ID whatever the units
    processed before have left there: an earlier entry with the same ID is
    replaced, the entries of the other IDs stay, no exception is raised and
    the log is the one the unit would have produced had there been no
    earlier entry. *)
Theorem later_unit_replaces_earlier
    (addons_dir addons_source addons_base_url : string)
    (earlier : list dir_entry) (item : dir_entry)
    (json_data acc : gmap string value) (addon_id : string) (entry : value)
    (w w1 w2 : world) :
  parse_items urljoin addons_dir addons_source addons_base_url earlier json_data w
  = (Ret acc, w1) →
  parse_addon urljoin addons_dir addons_source addons_base_url item ∅ w1
  = (Ret {[addon_id := entry]}, w2) →
  ∃ final,
    parse_items urljoin addons_dir addons_source addons_base_url
      (earlier ++ [item]) json_data w = (Ret final, w2)
    ∧ final !! addon_id = Some entry
    ∧ ∀ other, other ≠ addon_id → final !! other = acc !! other.
Proof.
  intros Hearlier Hitem. exists (<[addon_id := entry]> acc). split; [|split].
  - rewrite parse_items_app, Hearlier. cbn [parse_items]. munfold.
    rewrite parse_addon_acc, Hitem. by rewrite insert_union_singleton_l.
  - apply lookup_insert_eq.
  - intros other Hne. by rewrite lookup_insert_ne.
Qed.

End ScriptSameId.

Lemma later_unit_replaces_earlier_witness :
  ∃ (acc final : gmap string value) (w1 w2 : world),
    parse_items (λ b r, b ++ r) "addons" "internal" "http://localhost:8000/"
      [DirEntry "foo.py" false] ∅ world_same_id = (Ret acc, w1)
    ∧ acc !! "foo" = Some (foo_entry "http://localhost:8000/foo.py")
    ∧ parse_items (λ b r, b ++ r) "addons" "internal" "http://localhost:8000/"
        ([DirEntry "foo.py" false] ++ [DirEntry "foo" true]) ∅ world_same_id
      = (Ret final, w2)
    ∧ final !! "foo" = Some (foo_entry "http://localhost:8000/foo.zip")
    ∧ ∀ other, other ≠ "foo" → final !! other = acc !! other.
Proof.
  pose (r1 := parse_items (λ b r, b ++ r) "addons" "internal" "http://localhost:8000/"
                [DirEntry "foo.py" false] ∅ world_same_id).
  pose (acc := {["foo" := foo_entry "http://localhost:8000/foo.py"]} : gmap string value).
  pose (r2 := parse_addon (λ b r, b ++ r) "addons" "internal" "http://localhost:8000/"
                (DirEntry "foo" true) ∅ r1.2).
  destruct (later_unit_replaces_earlier (λ b r, b ++ r) "addons" "internal"
              "http://localhost:8000/" [DirEntry "foo.py" false] (DirEntry "foo" true)
              ∅ acc "foo" (foo_entry "http://localhost:8000/foo.zip")
              world_same_id r1.2 r2.2)
    as (final & Hfinal & Hfoo & Hother).
  - vm_compute. reflexivity.
  - vm_compute. reflexivity.
  - exists acc, final, r1.2, r2.2.
    split; [vm_compute; reflexivity|]. split; [reflexivity|]. done.
Defined.

(** ** Scans that do not look at index.json *)





Lemma stable_os_scandir (path : string) : stable (os_scandir path).
Proof.
  intros w1 w2 [Hd Hf]. unfold os_scandir. rewrite Hd.
  by destruct (dirs w2 !! path).
Qed.









Section ScriptIdempotence.

Variable urljoin : string → string → string.





End ScriptIdempotence.


(** ** The augmented copy *)



Lemma augmented_lookup (m : gmap string value) (source url key : string) :
  dict_update m (<["download_url" := VStr url]> (<["source" := VStr source]> ∅)) !! key
  = if decide (key = "download_url") then Some (VStr url)
    else if decide (key = "source") then Some (VStr source)
    else m !! key.
Proof.
  rewrite dict_update_lookup.
  destruct (decide (key = "download_url")) as [->|Hd].
  { by rewrite lookup_insert_eq. }
  rewrite lookup_insert_ne by done.
  destruct (decide (key = "source")) as [->|Hs].
  { by rewrite lookup_insert_eq. }
  by rewrite lookup_insert_ne, lookup_empty.
Qed.



(** ** Exceptions that leave parse_blinfo *)

(** The failures [parse_blinfo] handles: a file that is not text, a file
    that is not Python, a module without an assignment to [bl_info]. Each
    one gives [None] and a warning. *)
Lemma parse_blinfo_soft_failures :
  (parse_blinfo "addons/bin.py" world_computed).1 = Ret VNone
  ∧ (parse_blinfo "addons/bad.py" world_computed).1 = Ret VNone
  ∧ (parse_blinfo "addons/none.py" world_computed).1 = Ret VNone
  ∧ levelname <$> last (log (parse_blinfo "addons/bin.py" world_computed).2) = Some WARNING
  ∧ levelname <$> last (log (parse_blinfo "addons/bad.py" world_computed).2) = Some WARNING
  ∧ levelname <$> last (log (parse_blinfo "addons/none.py" world_computed).2) = Some WARNING.
Proof. repeat split; vm_compute; reflexivity. Qed.

(** C1 does not hold of the code. [ast.literal_eval] raises [ValueError] on
    a right-hand side that is not a literal, such as a dictionary display
    with the item ["version": VERSION], and [open] raises [OSError] on a
    file that cannot be opened; neither is
    inside a [try], so [parse_blinfo] lets both through, [parse_addons]
    lets them through as well, and [main] ends with the exception before
    it has written anything. *)
Theorem parse_blinfo_lets_exceptions_through :
  (parse_blinfo "addons/bar.py" world_computed).1
  = Raise (ValueError "malformed node or string")
  ∧ (parse_blinfo "addons/gone.py" world_computed).1 = Raise OSError
  ∧ (main (λ b r, b ++ r) fresh_args world_computed).1
    = Raise (ValueError "malformed node or string")
  ∧ files (main (λ b r, b ++ r) fresh_args world_computed).2 = files world_computed.
Proof. repeat split; vm_compute; reflexivity. Qed.

(** * Further properties *)

(** ** The scanner *)

Lemma substring_all (s : string) : substring 0 (String.length s) s = s.
Proof. induction s as [|a s IH]; cbn; [done | by rewrite IH]. Qed.

Lemma substring_split (n : nat) (s : string) :
  (n ≤ String.length s)%nat →
  substring 0 n s ++ substring n (String.length s - n) s = s.
Proof.
  revert n. induction s as [|a s IH]; intros [|n] Hn.
  - done.
  - cbn [String.length] in Hn. lia.
  - cbn. by rewrite substring_all.
  - cbn [String.length] in Hn.
    change (String a (substring 0 n s ++ substring n (String.length s - n) s)
            = String a s).
    rewrite IH by lia. done.
Qed.

Lemma rfind_lt (c : ascii) (s : string) (i : nat) :
  rfind c s = Some i → (i < String.length s)%nat.
Proof.
  revert i. induction s as [|a s IH]; intros i; cbn; [done|].
  destruct (rfind c s) as [j|].
  - intros [= <-]. specialize (IH j eq_refl). lia.
  - destruct (Ascii.eqb a c); [intros [= <-]; lia | done].
Qed.

Lemma append_empty_r (p : string) : p ++ "" = p.
Proof.
  induction p as [|a p IH]; [done|].
  change (String a (p ++ "") = String a p). by rewrite IH.
Qed.

(** The two parts [os.path.splitext] returns make up the path. *)
Lemma splitext_app (p : string) : (splitext p).1 ++ (splitext p).2 = p.
Proof.
  unfold splitext.
  destruct (rfind "." p) as [dotIndex|] eqn:Hdot; cbn [fst snd];
    [|apply append_empty_r].
  destruct (_ <=? _)%nat; [|apply append_empty_r].
  destruct (all_dots _); [apply append_empty_r|]. cbn [fst snd].
  apply substring_split. apply rfind_lt in Hdot. lia.
Qed.

(** What [iter_item] has seen when it yields. *)
Lemma iter_item_inv (addons_dir : string) (item : dir_entry) (w w' : world)
    (addon_id addon_fname addon_ext : string) :
  iter_item addons_dir item w = (Ret (Some (addon_id, addon_fname, addon_ext)), w') →
  ¬ hidden item
  ∧ addon_id = (splitext (name item)).1
  ∧ addon_ext = download_ext item
  ∧ addon_fname = (if is_dir item then init_py addons_dir item
                   else os_path_join addons_dir (name item))
  ∧ w' = w.
Proof.
  unfold iter_item, hidden, init_py, download_ext, os_path_exists, log_call. munfold.
  destruct (startswith (name item) ".") eqn:Hh; [done|].
  destruct (splitext (name item)) as [base ext].
  destruct (is_dir item).
  - destruct (negb _); [done|]. intros [= <- <- <- <-]. done.
  - intros [= <- <- <- <-]. done.
Qed.

Section ScriptProvenance.

Variable urljoin : string → string → string.

Lemma parse_addon_provenance (addons_dir addons_source addons_base_url : string)
    (item : dir_entry) (json_data json_data' : gmap string value) (w w' : world) :
  parse_addon urljoin addons_dir addons_source addons_base_url item json_data w
  = (Ret json_data', w') →
  json_data' = json_data
  ∨ ∃ addon_id entry,
      json_data' = <[addon_id := entry]> json_data
      ∧ scanned_from urljoin addons_source addons_base_url [item] addon_id entry.
Proof.
  unfold parse_addon. munfold. intros H.
  destruct (iter_item addons_dir item w)
    as [[[[[addon_id addon_fname] addon_ext]|]|e] w1] eqn:Hit;
    [| by left; injection H as <- _ | done].
  apply iter_item_inv in Hit as (Hh & Hid & Hext & _ & _).
  destruct (parse_blinfo addon_fname w1) as [[bl_info|e] w2]; [|done].
  destruct (is_None bl_info); [by left; injection H as <- _|].
  destruct (blinfo_to_json bl_info addon_id addons_source _ w2)
    as [[as_json|e] w3] eqn:Hjson; [|done].
  destruct (is_None as_json) eqn:Hnone; injection H as <- _; [by left|].
  right. exists addon_id, as_json. split; [done|].
  apply blinfo_to_json_inv in Hjson as [-> | (m & -> & _ & _ & ->)]; [done|].
  eexists item, _. split; [apply list_elem_of_here|]. split; [done|].
  split; [done|]. split.
  { rewrite Hid. symmetry. apply splitext_app. }
  split; [done|]. rewrite !augmented_lookup, Hext. done.
Qed.

(** X2. Hidden entries have no effect at all: the generator and the loop of
    [parse_addons] do on a listing what they do on the listing without its
    hidden entries, result, exception and log alike. *)
Theorem hidden_entries_have_no_effect
    (addons_dir addons_source addons_base_url : string)
    (items : list dir_entry) (json_data : gmap string value) (w : world) :
  iter_items addons_dir items w = iter_items addons_dir (visible items) w
  ∧ parse_items urljoin addons_dir addons_source addons_base_url items json_data w
    = parse_items urljoin addons_dir addons_source addons_base_url
        (visible items) json_data w.
Proof.
  unfold visible. split.
  - revert w. induction items as [|item rest IH]; intros w; [done|].
    destruct (startswith (name item) ".") eqn:Hh.
    + rewrite filter_cons_False by (by rewrite Hh).
      cbn [iter_items]. munfold. rewrite iter_item_hidden by done.
      rewrite <- IH. by destruct (iter_items addons_dir rest w) as [[ys|e] w1].
    + rewrite filter_cons_True by done.
      cbn [iter_items]. munfold.
      destruct (iter_item addons_dir item w) as [[y|e] w1]; [|done].
      by rewrite IH.
  - revert json_data w. induction items as [|item rest IH]; intros json_data w; [done|].
    destruct (startswith (name item) ".") eqn:Hh.
    + rewrite filter_cons_False by (by rewrite Hh).
      cbn [parse_items]. munfold. rewrite parse_addon_hidden by done. apply IH.
    + rewrite filter_cons_True by done.
      cbn [parse_items]. munfold.
      destruct (parse_addon urljoin addons_dir addons_source addons_base_url
                  item json_data w) as [[jd1|e] w1]; [apply IH | done].
Qed.

End ScriptProvenance.

(** ** The declaration parse_blinfo returns *)

Lemma find_blinfo_skips (addon_fname : string) (skipped_stmts rest : list stmt)
    (w : world) :
  Forall (λ s, is_declaration s = false) skipped_stmts →
  find_blinfo addon_fname (skipped_stmts ++ rest) w = find_blinfo addon_fname rest w.
Proof.
  induction 1 as [|s l Hs _ IH]; [done|].
  cbn [app find_blinfo]. destruct s as [targets rhs|]; [|done].
  destruct targets as [|target [|? ?]]; [done| |done].
  cbn [is_declaration] in Hs. by rewrite Hs.
Qed.

Lemma parse_blinfo_module (addon_fname : string) (file : file) (body : list stmt)
    (w : world) :
  files w !! addon_fname = Some file →
  as_python file = Module body →
  parse_blinfo addon_fname w
  = find_blinfo addon_fname body
      (World (files w) (dirs w)
         (log w ++ [LogRecord DEBUG "Parsing %s" [AStr addon_fname]])).
Proof.
  intros Hf Hm. unfold parse_blinfo, log_call, open_read. munfold.
  cbn [files dirs log]. by rewrite Hf, Hm.
Qed.

(** X4. [parse_blinfo] returns the value of the first top-level assignment
    whose single target is the name [bl_info]. Statements before it that
    are not such an assignment are passed over (other statements,
    assignments to other names or to an attribute, assignments with
    several targets), and what comes after it is never looked at, be it a
    second declaration or a malformed one. A module without such an
    assignment gives [None]. *)
Theorem parse_blinfo_first_declaration (addon_fname : string) (file : file)
    (before after : list stmt) (target rhs : expr) (w : world) :
  files w !! addon_fname = Some file →
  Forall (λ s, is_declaration s = false) before →
  target_id target = "bl_info" →
  (as_python file = Module (before ++ Assign [target] rhs :: after) →
   (parse_blinfo addon_fname w).1 = literal_eval rhs)
  ∧ (as_python file = Module before →
     (parse_blinfo addon_fname w).1 = Ret VNone).
Proof.
  intros Hf Hbefore Htarget. split; intros Hm.
  - rewrite (parse_blinfo_module _ _ _ _ Hf Hm), find_blinfo_skips by done.
    cbn [find_blinfo]. by rewrite Htarget.
  - rewrite (parse_blinfo_module _ _ _ _ Hf Hm).
    rewrite <- (app_nil_r before), find_blinfo_skips by done. done.
Qed.

Lemma parse_blinfo_first_declaration_witness :
  (parse_blinfo "a.py" world_two_declarations).1 = literal_eval (Constant (CInt 1)).
Proof.
  apply (proj1 (parse_blinfo_first_declaration "a.py" two_declarations
                  not_declarations [Assign [Name "bl_info"] (Name "y")]
                  (Name "bl_info") (Constant (CInt 1)) world_two_declarations
                  eq_refl ltac:(repeat constructor) eq_refl)).
  reflexivity.
Defined.

(** ** The validator *)

Lemma missing_keys_absent (keys : list string) (m : gmap string value) :
  missing_keys keys (VDict m) = Ret (absent_keys keys m).
Proof.
  unfold absent_keys.
  induction keys as [|key rest IH]; cbn [missing_keys py_contains]; [done|].
  rewrite IH. case_bool_decide.
  - by rewrite filter_cons_False by (intros Hn; by apply Hn).
  - by rewrite filter_cons_True.
Qed.

(** X6. A declaration without one of the required keys is rejected:
    [blinfo_to_json] returns [None], and the only thing it does is to log
    one warning with the ID of the add-on and the required keys that are
    missing, in the order of [REQUIRED_KEYS], separated by a comma and a
    space. *)
Theorem blinfo_to_json_rejects (m : gmap string value)
    (addon_id source url : string) (w : world) :
  "name" ∉ dom m ∨ "blender" ∉ dom m →
  blinfo_to_json (VDict m) addon_id source url w
  = (Ret VNone,
     logged w (LogRecord WARNING
                 "Addon %s misses required key(s) %s; skipping this addon."
                 [AStr addon_id;
                  AStr (String.concat ", " (absent_keys REQUIRED_KEYS m))])).
Proof.
  intros Hmiss. unfold blinfo_to_json. munfold. rewrite missing_keys_absent.
  destruct (absent_keys REQUIRED_KEYS m) as [|k l] eqn:Habs; [|done].
  exfalso. unfold absent_keys, REQUIRED_KEYS in Habs.
  destruct Hmiss as [Hn|Hb].
  - by rewrite filter_cons_True in Habs.
  - destruct (decide ("name" ∈ dom m)).
    + rewrite filter_cons_False in Habs by (intros Hn; by apply Hn).
      by rewrite filter_cons_True in Habs.
    + by rewrite filter_cons_True in Habs.
Qed.

Lemma blinfo_to_json_rejects_witness :
  blinfo_to_json (VDict {["name" := VStr "Foo"]}) "foo" "internal" "u" empty_world
  = (Ret VNone,
     logged empty_world
       (LogRecord WARNING
          "Addon %s misses required key(s) %s; skipping this addon."
          [AStr "foo";
           AStr (String.concat ", "
                   (absent_keys REQUIRED_KEYS {["name" := VStr "Foo"]}))])).
Proof.
  apply (blinfo_to_json_rejects {["name" := VStr "Foo"]} "foo" "internal" "u"
           empty_world).
  right. apply (bool_decide_unpack _). vm_compute. exact I.
Defined.

(** X7. A declaration with both required keys is never rejected for its
    recommended keys: the entry is the same whether they are there or not.
    When some are missing, one record at level INFO names them, in the
    order of [RECOMMENDED_KEYS]; when none is missing nothing is logged. *)
Theorem blinfo_to_json_recommended (m : gmap string value)
    (addon_id source url : string) (w : world) :
  "name" ∈ dom m →
  "blender" ∈ dom m →
  blinfo_to_json (VDict m) addon_id source url w
  = (Ret (VDict (dict_update m (<["download_url" := VStr url]>
                                  (<["source" := VStr source]> ∅)))),
     if is_nil (absent_keys RECOMMENDED_KEYS m) then w
     else logged w (LogRecord INFO "Addon %s misses recommended key(s) %s"
                      [AStr addon_id;
                       AStr (String.concat ", " (absent_keys RECOMMENDED_KEYS m))])).
Proof.
  intros Hn Hb. unfold blinfo_to_json. munfold.
  rewrite (proj2 (missing_required_keys_dict m)) by done. cbn [is_nil negb].
  rewrite missing_keys_absent.
  by destruct (absent_keys RECOMMENDED_KEYS m).
Qed.

Lemma blinfo_to_json_recommended_witness :
  blinfo_to_json (VDict foo_bl_info) "foo" "internal" "u" empty_world
  = (Ret (VDict (dict_update foo_bl_info
                   (<["download_url" := VStr "u"]>
                      (<["source" := VStr "internal"]> ∅)))),
     if is_nil (absent_keys RECOMMENDED_KEYS foo_bl_info) then empty_world
     else logged empty_world
            (LogRecord INFO "Addon %s misses recommended key(s) %s"
               [AStr "foo";
                AStr (String.concat ", " (absent_keys RECOMMENDED_KEYS foo_bl_info))])).
Proof.
  apply (blinfo_to_json_recommended foo_bl_info "foo" "internal" "u" empty_world).
  - apply (bool_decide_unpack _). vm_compute. exact I.
  - apply (bool_decide_unpack _). vm_compute. exact I.
Defined.

(** The two records on examples: the missing keys as they are logged. *)
Example missing_keys_logged :
  absent_keys REQUIRED_KEYS {["name" := VStr "Foo"]} = ["blender"]
  ∧ String.concat ", " (absent_keys RECOMMENDED_KEYS foo_bl_info)
    = "author, description, location, wiki_url, category".
Proof. split; vm_compute; reflexivity. Qed.

(** ** The index reader *)

Lemma json_size_elem (j : json) (l : list json) :
  j ∈ l → (json_size j ≤ foldr (λ x acc, json_size x + acc) 0 l)%nat.
Proof.
  induction 1 as [x l|x y l _ IH]; simpl; lia.
Qed.

Lemma json_size_lookup (m : gmap string json) (k : string) (j : json) :
  m !! k = Some j →
  (json_size j ≤ map_fold (λ _ x acc, json_size x + acc) 0 m)%nat.
Proof.
  intros Hk.
  rewrite (map_fold_delete_L _ _ k j m); [lia | intros; lia | done].
Qed.

Lemma json_ind' (P : json → Prop) :
  P JNull →
  (∀ b, P (JBool b)) →
  (∀ n, P (JNum n)) →
  (∀ f, P (JFloat f)) →
  (∀ s, P (JStr s)) →
  (∀ l, Forall P l → P (JArr l)) →
  (∀ m, map_Forall (λ _, P) m → P (JObj m)) →
  ∀ j, P j.
Proof.
  intros HN HB HI HF HS HA HO j.
  remember (json_size j) as n eqn:Hn.
  revert j Hn. induction (lt_wf n) as [n _ IH]. intros j ->.
  destruct j as [| | | | |l|m]; auto.
  - apply HA, Forall_forall. intros x Hx.
    apply (IH (json_size x)); [|done].
    pose proof (json_size_elem x l Hx). simpl. lia.
  - apply HO. intros k x Hk.
    apply (IH (json_size x)); [|done].
    pose proof (json_size_lookup m k x Hk). simpl. lia.
Qed.

(** What [json.load] returns holds no tuple. *)
Lemma tuples_to_lists_json_decode (j : json) :
  tuples_to_lists (json_decode j) = json_decode j.
Proof.
  induction j as [| | | | |l IH|m IH] using json_ind'; cbn [json_decode tuples_to_lists];
    try done.
  - f_equal. rewrite <- list_fmap_compose. apply list_fmap_ext.
    intros i x Hx. apply (Forall_lookup_1 _ _ _ _ IH Hx).
  - f_equal. rewrite <- map_fmap_compose. apply map_fmap_ext.
    intros k x Hx. apply (IH k x Hx).
Qed.

(** What [parse_existing_index] returns was made by [json.load]. *)
Lemma parse_existing_index_decoded (index_fname : string) (w w' : world) (v : value) :
  parse_existing_index index_fname w = (Ret v, w') → ∃ j, v = json_decode j.
Proof.
  unfold parse_existing_index, log_call, open_read. munfold. cbn [files dirs log].
  destruct (files w !! index_fname) as [file|]; [|done].
  destruct (as_json file) as [| |doc]; [done|done|].
  destruct doc as [| | | | | |members]; try done.
  cbn [json_decode py_get py_getitem]. rewrite !lookup_fmap.
  destruct (negb _); [done|].
  destruct (members !! "addons") as [addons|];
    cbn [fmap option_fmap option_map]; [|done].
  intros [= <- _]. eauto.
Qed.

(** X9. [parse_existing_index] returns exactly when the file exists, holds
    a JSON object whose ['schema-version'] equals 1 and which has a member
    ['addons']; it returns that member as [json.load] gives it, whatever
    it is, and its only effect is one record in the log. *)
Theorem parse_existing_index_returns (index_fname : string) (w w' : world)
    (v : value) :
  parse_existing_index index_fname w = (Ret v, w') ↔
  ∃ file members sv addons,
    files w !! index_fname = Some file
    ∧ as_json file = Json (JObj members)
    ∧ members !! "schema-version" = Some sv
    ∧ schema_ok sv = true
    ∧ members !! "addons" = Some addons
    ∧ v = json_decode addons
    ∧ w' = logged w (LogRecord INFO "Reading existing %s" [AStr index_fname]).
Proof.
  unfold parse_existing_index, log_call, open_read, schema_ok, logged. munfold.
  cbn [files dirs log]. split.
  - destruct (files w !! index_fname) as [file|]; [|done].
    destruct (as_json file) as [| |doc] eqn:Hj; [done|done|].
    destruct doc as [| | | | | |members]; try done.
    cbn [json_decode py_get py_getitem]. rewrite !lookup_fmap.
    destruct (members !! "schema-version") as [sv|] eqn:Hver; [|done].
    cbn [fmap option_fmap option_map].
    destruct (py_eq_int (json_decode sv) CURRENT_SCHEMA_VERSION) eqn:Hsv; [|done].
    cbn [negb]. destruct (members !! "addons") as [addons|] eqn:Ha; [|done].
    cbn [fmap option_fmap option_map]. intros [= <- <-].
    by exists file, members, sv, addons.
  - intros (file & members & sv & addons & -> & -> & Hsv & Hok & Ha & -> & ->).
    cbn [json_decode py_get py_getitem]. rewrite !lookup_fmap, Hsv, Ha.
    cbn [fmap option_fmap option_map]. by rewrite Hok.
Qed.

Lemma parse_existing_index_returns_witness :
  ∃ v, parse_existing_index "index.json" world_v1
       = (Ret v, logged world_v1
                   (LogRecord INFO "Reading existing %s" [AStr "index.json"])).
Proof.
  eexists.
  apply (proj2 (parse_existing_index_returns "index.json" world_v1 _ _)).
  eexists _, _, (JNum 1), _. repeat split; reflexivity.
Defined.

(** ** main *)

Section ScriptMainFurther.

Variable urljoin : string → string → string.

(** X12. The index [main] writes can always be merged by a later run: read
    with [parse_existing_index] it passes the check of the schema version
    and gives a dictionary, the [addons] mapping of the document. *)
Theorem main_writes_mergeable_index (args : arguments) (w w' : world) :
  main urljoin args w = (Ret tt, w') →
  ∃ w'', parse_existing_index "index.json" w' = (Ret (VDict (index_addons w')), w'').
Proof.
  intros Hmain.
  destruct (main_inv urljoin args w w' Hmain)
    as (old & new & w1 & w2 & _ & _ & Hf & _).
  assert (Hw : files w' !! "index.json" = Some (index_file (VDict (dict_update old new))))
    by (rewrite Hf; apply lookup_insert_eq).
  destruct (parse_existing_index_written "index.json" _ _ w' Hw) as (w'' & Hr & _).
  exists w''. rewrite Hr. cbn [tuples_to_lists].
  by rewrite (index_addons_written w' _ Hw).
Qed.

(** X14. In merge mode the document written has, for every ID the scan did
    not return, the entry the old document had for it, unchanged, or none
    if it had none; for an ID of the scan it has the new entry as JSON
    shows it, its tuples turned into lists. *)
Theorem main_merge_keeps_document_entries (args : arguments) (w w' : world) :
  merge args = true →
  main urljoin args w = (Ret tt, w') →
  ∃ new w1 w2,
    parse_addons urljoin (dir args) (source args) (base args) w1 = (Ret new, w2)
    ∧ files w1 = files w ∧ dirs w1 = dirs w
    ∧ (∀ addon_id, new !! addon_id = None →
         index_addons w' !! addon_id = index_addons w !! addon_id)
    ∧ (∀ addon_id entry, new !! addon_id = Some entry →
         index_addons w' !! addon_id = Some (tuples_to_lists entry)).
Proof.
  intros Hm Hmain.
  destruct (main_inv urljoin args w w' Hmain)
    as (old & new & w1 & w2 & Hold & Hscan & Hf & _).
  rewrite Hm in Hold.
  destruct (read_only_parse_existing_index "index.json" w) as [Hf1 Hd1].
  rewrite Hold in Hf1, Hd1. cbn [snd] in Hf1, Hd1.
  exists new, w1, w2. split; [done|]. split; [done|]. split; [done|].
  assert (Hw : files w' !! "index.json" = Some (index_file (VDict (dict_update old new))))
    by (rewrite Hf; apply lookup_insert_eq).
  rewrite (index_addons_written w' _ Hw).
  assert (Hdec : tuples_to_lists (VDict old) = VDict old).
  { destruct (parse_existing_index_decoded _ _ _ _ Hold) as [j ->].
    apply tuples_to_lists_json_decode. }
  cbn [tuples_to_lists] in Hdec. injection Hdec as Hdec.
  rewrite (index_addons_read w w1 old Hold).
  split.
  - intros addon_id Hn. rewrite lookup_fmap, dict_update_lookup, Hn.
    by rewrite <- lookup_fmap, Hdec.
  - intros addon_id entry Hn. by rewrite lookup_fmap, dict_update_lookup, Hn.
Qed.

(** X16. [--merge] needs an index to merge with: when there is no
    [index.json], [main] ends with the [OSError] of [open] before it has
    scanned anything, and writes no index. *)
Theorem main_merge_without_index (args : arguments) (w : world) :
  merge args = true →
  files w !! "index.json" = None →
  (main urljoin args w).1 = Raise OSError
  ∧ files (main urljoin args w).2 = files w
  ∧ log (main urljoin args w).2
    = (log w ++ [LogRecord INFO "Reading existing %s" [AStr "index.json"]])%list.
Proof.
  intros Hm Hf. unfold main, parse_existing_index, log_call, open_read. rewrite Hm.
  munfold. cbn [files dirs log]. by rewrite Hf.
Qed.

End ScriptMainFurther.

Lemma main_writes_mergeable_index_witness :
  ∃ w'', parse_existing_index "index.json" (main (λ b r, b ++ r) merge_args world_v1).2
         = (Ret (VDict (index_addons (main (λ b r, b ++ r) merge_args world_v1).2)), w'').
Proof.
  apply (main_writes_mergeable_index (λ b r, b ++ r) merge_args world_v1).
  vm_compute. reflexivity.
Defined.

Lemma main_merge_keeps_document_entries_witness :
  ∃ (new : gmap string value) (w1 w2 : world),
    parse_addons (λ b r, b ++ r) (dir merge_args) (source merge_args)
      (base merge_args) w1 = (Ret new, w2)
    ∧ files w1 = files world_v1 ∧ dirs w1 = dirs world_v1
    ∧ (∀ addon_id, new !! addon_id = None →
         index_addons (main (λ b r, b ++ r) merge_args world_v1).2 !! addon_id
         = index_addons world_v1 !! addon_id)
    ∧ (∀ addon_id entry, new !! addon_id = Some entry →
         index_addons (main (λ b r, b ++ r) merge_args world_v1).2 !! addon_id
         = Some (tuples_to_lists entry)).
Proof.
  apply (main_merge_keeps_document_entries (λ b r, b ++ r) merge_args world_v1).
  - reflexivity.
  - vm_compute. reflexivity.
Defined.

Lemma main_merge_without_index_witness :
  (main (λ b r, b ++ r) merge_args world_fresh).1 = Raise OSError
  ∧ files (main (λ b r, b ++ r) merge_args world_fresh).2 = files world_fresh
  ∧ log (main (λ b r, b ++ r) merge_args world_fresh).2
    = (log world_fresh
         ++ [LogRecord INFO "Reading existing %s" [AStr "index.json"]])%list.
Proof.
  apply (main_merge_without_index (λ b r, b ++ r) merge_args world_fresh);
    reflexivity.
Defined.

(** ** The order of the directory listing *)

Lemma blind_ret {A} (a : A) : blind (mret a).
Proof. done. Qed.

Lemma blind_raise {A} (e : exn) : blind (@raise A e).
Proof. done. Qed.

Lemma blind_lift {A} (r : result A) : blind (lift r).
Proof. done. Qed.

Lemma blind_log_call (l : level) (fmt : string) (a : list log_arg) :
  blind (log_call l fmt a).
Proof. done. Qed.

Lemma blind_open_read (fname : string) : blind (open_read fname).
Proof.
  intros w1 w2 [Hf Hd]. unfold open_read. rewrite Hf.
  by destruct (files w2 !! fname).
Qed.

Lemma blind_os_path_exists (path : string) : blind (os_path_exists path).
Proof.
  intros w1 w2 [Hf Hd]. unfold os_path_exists. cbn [fst snd].
  split; [|done]. by rewrite Hf, Hd.
Qed.

Lemma blind_bind {A B} (m : M A) (k : A → M B) :
  blind m → (∀ a, blind (k a)) → blind (m ≫= k).
Proof.
  intros Hm Hk w1 w2 Hw. munfold. destruct (Hm w1 w2 Hw) as [Hr Hw'].
  destruct (m w1) as [[a|e] w1'], (m w2) as [r2 w2']; cbn [fst snd] in *;
    subst r2; [|done].
  by apply Hk.
Qed.

Create HintDb blind.
#[local] Hint Resolve blind_ret blind_raise blind_lift blind_log_call blind_open_read
  blind_os_path_exists : blind.

Ltac blind_step :=
  match goal with
  | |- blind (mbind _ _) => apply blind_bind; [|intros ?]
  | |- blind (if ?b then _ else _) => destruct b
  | |- blind (match ?x with _ => _ end) => destruct x
  | |- blind (let '(_, _) := ?x in _) => destruct x
  | |- _ => solve [auto with blind]
  end.

Ltac solve_blind := repeat blind_step.

Lemma blind_iter_item (addons_dir : string) (item : dir_entry) :
  blind (iter_item addons_dir item).
Proof. unfold iter_item. solve_blind. Qed.

Lemma blind_find_blinfo (addon_fname : string) (body : list stmt) :
  blind (find_blinfo addon_fname body).
Proof.
  induction body as [|[targets rhs|] rest IH]; cbn [find_blinfo]; [solve_blind| |done].
  destruct targets as [|target [|? ?]]; [done| |done].
  solve_blind.
Qed.

Lemma blind_parse_blinfo (addon_fname : string) : blind (parse_blinfo addon_fname).
Proof. unfold parse_blinfo. pose proof blind_find_blinfo. solve_blind. Qed.

Lemma blind_blinfo_to_json (bl_info : value) (addon_id source url : string) :
  blind (blinfo_to_json bl_info addon_id source url).
Proof. unfold blinfo_to_json. solve_blind. Qed.

#[local] Hint Resolve blind_iter_item blind_parse_blinfo blind_blinfo_to_json : blind.

(** Overlaying the contributions of two lists of entries that are a
    permutation of one another gives the same mapping, provided each
    contribution is empty or one entry under the ID of the directory entry,
    and the IDs of the entries that contribute are distinct. *)
Lemma overlay_all_permutation (c : dir_entry → result (gmap string value))
    (items items' : list dir_entry) :
  (∀ item stored, c item = Ret stored →
     stored = ∅
     ∨ (startswith (name item) "." = false
        ∧ ∃ entry, stored = {[entry_id item := entry]})) →
  items ≡ₚ items' →
  NoDup (entry_id <$> visible items) →
  ∀ acc m, overlay_all c items acc = Ret m → overlay_all c items' acc = Ret m.
Proof.
  intros Hshape Hperm.
  induction Hperm as [|x l l' Hperm IH|x y l|l l' l'' Hperm1 IH1 Hperm2 IH2];
    intros Hnd acc m.
  - done.
  - cbn [overlay_all]. destruct (c x) as [sx|e]; [|done].
    apply IH. unfold visible in *.
    destruct (decide (startswith (name x) "." = false)) as [Hx|Hx].
    + rewrite filter_cons_True in Hnd by done.
      rewrite fmap_cons in Hnd. by apply NoDup_cons in Hnd as [_ ?].
    + by rewrite filter_cons_False in Hnd.
  - cbn [overlay_all].
    destruct (c y) as [sy|e] eqn:Hy; [|done].
    destruct (c x) as [sx|e] eqn:Hx; [|done].
    assert (Hcomm : sx ∪ (sy ∪ acc) = sy ∪ (sx ∪ acc)); [|by rewrite Hcomm].
    destruct (Hshape x sx Hx) as [-> | (Hvx & ex & ->)].
    { by rewrite !(left_id_L ∅ (∪)). }
    destruct (Hshape y sy Hy) as [-> | (Hvy & ey & ->)].
    { by rewrite !(left_id_L ∅ (∪)). }
    unfold visible in Hnd. rewrite !filter_cons_True, !fmap_cons in Hnd by done.
    apply NoDup_cons in Hnd as [Hne _].
    rewrite <- !insert_union_singleton_l. apply insert_insert_ne.
    intros Heq. apply Hne. rewrite Heq. apply list_elem_of_here.
  - intros Hm. apply IH2.
    + unfold visible in *. by rewrite <- Hperm1.
    + by apply IH1.
Qed.

Section ScriptOrder.

Variable urljoin : string → string → string.

Lemma blind_parse_addon (addons_dir addons_source addons_base_url : string)
    (item : dir_entry) (json_data : gmap string value) :
  blind (parse_addon urljoin addons_dir addons_source addons_base_url item json_data).
Proof. unfold parse_addon. solve_blind. Qed.

(** The loop of [parse_addons] is the overlay of what each entry stores on
    its own, as found in any world with the same files and directory
    paths. *)
Lemma parse_items_overlay (addons_dir addons_source addons_base_url : string)
    (items : list dir_entry) (json_data : gmap string value) (w0 w : world) :
  same_paths w w0 →
  (parse_items urljoin addons_dir addons_source addons_base_url items json_data w).1
  = overlay_all
      (λ item, (parse_addon urljoin addons_dir addons_source addons_base_url
                  item ∅ w0).1)
      items json_data.
Proof.
  revert json_data w. induction items as [|item rest IH]; intros json_data w Hw; [done|].
  cbn [parse_items overlay_all]. munfold.
  rewrite parse_addon_acc.
  destruct (blind_parse_addon addons_dir addons_source addons_base_url item ∅ w w0 Hw)
    as [Hr Hw'].
  destruct (parse_addon urljoin addons_dir addons_source addons_base_url item ∅ w)
    as [[stored|e] w1]; cbn [fst snd] in *; rewrite <- Hr; [|done].
  apply IH.
  destruct (parse_addon urljoin addons_dir addons_source addons_base_url item ∅ w0)
    as [r0 w0'] eqn:H0. cbn [snd] in Hw'.
  destruct (read_only_parse_addon urljoin addons_dir addons_source addons_base_url
              item ∅ w0) as [Hf0 Hd0].
  rewrite H0 in Hf0, Hd0. cbn [snd] in Hf0, Hd0.
  destruct Hw' as [Hf Hd]. split; congruence.
Qed.

Lemma parse_addon_stores (addons_dir addons_source addons_base_url : string)
    (item : dir_entry) (stored : gmap string value) (w : world) :
  (parse_addon urljoin addons_dir addons_source addons_base_url item ∅ w).1
  = Ret stored →
  stored = ∅
  ∨ (startswith (name item) "." = false
     ∧ ∃ entry, stored = {[entry_id item := entry]}).
Proof.
  destruct (parse_addon urljoin addons_dir addons_source addons_base_url item ∅ w)
    as [r w'] eqn:Hr. cbn [fst]. intros ->.
  apply parse_addon_provenance in Hr
    as [-> | (addon_id & entry & -> & (it & m & Hin & Hh & -> & _))]; [by left|].
  right. apply list_elem_of_singleton in Hin as ->. split.
  - unfold hidden in Hh. by destruct (startswith (name item) ".").
  - exists entry. by rewrite insert_empty.
Qed.

(** X19. The order in which [os.scandir] lists the directory does not
    matter when the entries that are not hidden have distinct IDs: for two
    listings of the same entries, over the same files, the scan returns in
    one order exactly when it returns in the other, and the mapping is the
    same. *)
Theorem scan_order_irrelevant (addons_dir addons_source addons_base_url : string)
    (items items' : list dir_entry) (w w' : world) (m : gmap string value) :
  same_paths w w' →
  dirs w !! addons_dir = Some items →
  dirs w' !! addons_dir = Some items' →
  items ≡ₚ items' →
  NoDup (entry_id <$> visible items) →
  (parse_addons urljoin addons_dir addons_source addons_base_url w).1 = Ret m
  ↔ (parse_addons urljoin addons_dir addons_source addons_base_url w').1 = Ret m.
Proof.
  intros Hw Hd Hd' Hperm Hnd.
  unfold parse_addons, os_scandir. munfold. rewrite Hd, Hd'.
  rewrite (parse_items_overlay _ _ _ items ∅ w w) by done.
  rewrite (parse_items_overlay _ _ _ items' ∅ w w') by (by destruct Hw).
  split.
  - apply overlay_all_permutation; [|done|done].
    intros item stored. apply parse_addon_stores.
  - apply overlay_all_permutation; [|done|].
    + intros item stored. apply parse_addon_stores.
    + unfold visible in *. by rewrite <- Hperm.
Qed.

End ScriptOrder.

Lemma scan_order_irrelevant_witness :
  ∃ m : gmap string value,
    (parse_addons (λ b r, b ++ r) "addons" "internal" "http://localhost:8000/"
       world_two).1 = Ret m
    ∧ (parse_addons (λ b r, b ++ r) "addons" "internal" "http://localhost:8000/"
         world_two_reversed).1 = Ret m.
Proof.
  eexists. split; [vm_compute; reflexivity|].
  apply (proj1 (scan_order_irrelevant (λ b r, b ++ r) "addons" "internal"
                  "http://localhost:8000/"
                  [DirEntry "foo.py" false; DirEntry "bar" true]
                  [DirEntry "bar" true; DirEntry "foo.py" false]
                  world_two world_two_reversed _
                  ltac:(split; reflexivity) eq_refl eq_refl
                  ltac:(apply perm_swap)
                  ltac:(apply (bool_decide_unpack _); vm_compute; exact I))).
  vm_compute. reflexivity.
Defined.

(** * From the source of a unit to its index entry *)


Section ScriptUnit.

Variable urljoin : string → string → string.




End ScriptUnit.


(** * A run without --merge *)

Section ScriptFresh.

Variable urljoin : string → string → string.

(** X13. After a run without [--merge] that ends normally, the index
    holds the entries of this scan and nothing else, with tuples as lists:
    whatever [index.json] held before the run is gone. *)
Theorem main_fresh_replaces_index (args : arguments) (w w' : world) :
  merge args = false →
  main urljoin args w = (Ret tt, w') →
  ∃ new w1,
    parse_addons urljoin (dir args) (source args) (base args) w = (Ret new, w1)
    ∧ index_addons w' = tuples_to_lists <$> new.
Proof.
  intros Hm Hmain.
  destruct (main_inv urljoin args w w' Hmain) as (old & new & w1 & w2 & Hold & Hscan & Hf & _).
  rewrite Hm in Hold. destruct Hold as [-> ->].
  exists new, w2. split; [done|].
  apply index_addons_written. rewrite Hf, lookup_insert_eq.
  unfold dict_update. by rewrite (right_id_L ∅ (∪)).
Qed.

End ScriptFresh.

Lemma main_fresh_replaces_index_witness :
  ∃ new w1,
    parse_addons (λ b r, b ++ r) "addons" "internal" "http://localhost:8000/" world_v1
    = (Ret new, w1)
    ∧ index_addons
        (main (λ b r, b ++ r) fresh_args world_v1).2 = tuples_to_lists <$> new.
Proof.
  apply (main_fresh_replaces_index (λ b r, b ++ r) fresh_args world_v1
           (main (λ b r, b ++ r) fresh_args world_v1).2).
  - reflexivity.
  - vm_compute. reflexivity.
Defined.
